(** * Airshare sender: a shallow embedding of [airshare/sender.py]

    The module hosts a sending server ([send_server]), uploads files to a
    receiving server ([send]) and wraps the server in a process
    ([send_server_proc]).  Every function of the module is glue between
    four outside worlds: multicast discovery (zeroconf), the file system,
    the HTTP client (requests) and the HTTP server (aiohttp).  The
    embedding keeps these worlds in one explicit [World] value, threads
    it through a small state, exception and trace monad, and records
    every externally visible action of a call as an [event]. *)

From stdpp Require Import gmap strings list fin_maps pretty.
From Equations Require Import Equations.
From Stdlib Require Import Strings.Byte Strings.Ascii.

Open Scope string_scope.
Open Scope Z_scope.

(** ** Python values *)

Abbreviation bytes := (list Byte.byte).

(** The exceptions that the module raises itself or lets pass. *)
Inductive exn :=
| ValueError (msg : string)
| TypeError
| IndexError
| KeyError (key : string)
| OSError
| OverflowError
| FileNotFoundError
| IsADirectoryError
| ConnectionError
| NonUniqueNameException
| ZipFailure.

(** The [file] keyword argument is a [str] or a [list] of [str]
    ([None] is the absent [option]). *)
Inductive file_arg :=
| FStr (s : string)
| FList (l : list string).

(** [content] in [send_server] holds [None], a [str] or a [list]. *)
Inductive pyval :=
| PNone
| PStr (s : string)
| PList (l : list string).

(** Truthiness of an optional string and [a or b] on it. *)
Definition truthy_str (o : option string) : bool :=
  match o with
  | Some s => bool_decide (s ≠ EmptyString)
  | None => false
  end.

(** [str(n)] for an [int]. *)
Definition str (n : Z) : string := pretty n.

(** [s.split(sep)] for a one-character separator: never the empty list. *)
Fixpoint split (sep : Ascii.ascii) (s : string) : list string :=
  match s with
  | EmptyString => [EmptyString]
  | String c s' =>
      if Ascii.eqb c sep then EmptyString :: split sep s'
      else match split sep s' with
           | h :: t => String c h :: t
           | [] => [String c EmptyString]
           end
  end.

(** [os.path.sep] on the POSIX hosts the package targets. *)
Definition os_path_sep : Ascii.ascii := "/"%char.

(** ** Discovery records *)

Record ServiceInfo := {
  si_type : string;
  si_name : string;
  si_addresses : list bytes;
  si_port : Z;
  si_server : string
}.

(** ** The file system *)

Inductive node :=
| RegularFile (data : bytes)
| Directory (st_size : Z).

Record FileSystem := {
  realpath : string -> string;
  nodes : gmap string node
}.

Definition isdir (fs : FileSystem) (p : string) : bool :=
  match nodes fs !! realpath fs p with
  | Some (Directory _) => true
  | _ => false
  end.

(** An open binary file: its contents and the read position. *)
Record file_obj := {
  f_data : bytes;
  f_pos : nat
}.

(** [f.read(n)]: at most [n] bytes from the position, which advances. *)
Definition f_read (n : nat) (f : file_obj) : bytes * file_obj :=
  let chunk := take n (drop (f_pos f) (f_data f)) in
  (chunk, {| f_data := f_data f; f_pos := (f_pos f + length chunk)%nat |}).

(** ** The HTTP server side: application, requests, responses *)

Inductive handler :=
| H_text_sender
| H_download_page
| H_file_stream_sender
| H_is_airshare_text_sender
| H_is_airshare_file_sender.

#[export] Instance handler_eq_dec : EqDecision handler.
Proof. solve_decision. Defined.

(** [web.Application]: the keys the module stores and the GET routes in
    registration order. *)
Record App := {
  app_text : option pyval;
  app_file_path : option string;
  app_file_name : option string;
  app_file_size : option Z;
  router : list (string * handler)
}.

Definition new_app : App :=
  {| app_text := None; app_file_path := None; app_file_name := None;
     app_file_size := None; router := [] |}.

Definition add_get (path : string) (h : handler) (app : App) : App :=
  {| app_text := app_text app; app_file_path := app_file_path app;
     app_file_name := app_file_name app; app_file_size := app_file_size app;
     router := router app ++ [(path, h)] |}.

Record Request := {
  req_method : string;
  req_path : string;
  peername : option (string * Z)
}.

Inductive payload :=
| Text (s : string)
| Stream (chunks : list bytes).

(** A response.  The [body] of a streamed response lists the chunks its
    payload writer has put on the connection; [allowance] is the number of
    bytes the writer still accepts once the response is prepared with a
    declared content length, [None] when there is no such limit. *)
Record Response := {
  status : Z;
  headers : gmap string string;
  body : payload;
  allowance : option Z
}.

(** [web.Response(text=s)] and [web.Response(text=s, content_type=t)]:
    the text is sent as UTF-8 and the content type says so. *)
Definition text_response (content_type : string) (s : string) : Response :=
  {| status := 200;
     headers := {[ "content-type" := content_type ++ "; charset=utf-8" ]};
     body := Text s;
     allowance := None |}.

(** [web.StreamResponse()] and [response.headers[k] = v]. *)
Definition stream_response : Response :=
  {| status := 200; headers := ∅; body := Stream []; allowance := None |}.

Definition set_header (k v : string) (r : Response) : Response :=
  {| status := status r; headers := <[k := v]> (headers r); body := body r;
     allowance := allowance r |}.

(** [chunk[:n]], also for a negative [n]. *)
Definition slice_to (n : Z) (chunk : bytes) : bytes :=
  if decide (0 <= n) then take (Z.to_nat n) chunk
  else take (length chunk - Z.to_nat (- n)) chunk.

(** [response.write(chunk)] on a prepared response: the payload writer
    sends the chunk whole while the declared length allows it, cuts the
    chunk that exceeds what is left, and sends nothing once the declared
    length is used up. *)
Definition write (chunk : bytes) (r : Response) : Response :=
  let sent : bytes * option Z :=
    match allowance r with
    | None => (chunk, None)
    | Some len =>
        if decide (Z.of_nat (length chunk) <= len)
        then (chunk, Some (len - Z.of_nat (length chunk)))
        else (slice_to len chunk, Some 0)
    end in
  {| status := status r; headers := headers r;
     body := match body r with
             | Stream cs =>
                 if decide (sent.1 = []) then Stream cs
                 else Stream (cs ++ [sent.1])
             | Text s => Text s
             end;
     allowance := sent.2 |}.

(** The bytes of the body that were put on the connection. *)
Definition body_bytes (r : Response) : bytes :=
  match body r with
  | Stream cs => concat cs
  | Text s => String.list_byte_of_string s
  end.

(** Whether a header value holds a carriage return or a line feed. *)
Fixpoint has_newline (s : string) : bool :=
  match s with
  | EmptyString => false
  | String c s' =>
      Ascii.eqb c (ascii_of_nat 13) || Ascii.eqb c (ascii_of_nat 10)
      || has_newline s'
  end.

(** Whether a string holds a control character (codes 0 to 31 and 127). *)
Definition is_control (c : Ascii.ascii) : bool :=
  (nat_of_ascii c <? 32)%nat || (nat_of_ascii c =? 127)%nat.

Fixpoint has_control (s : string) : bool :=
  match s with
  | EmptyString => false
  | String c s' => is_control c || has_control s'
  end.

(** [int(s)] on the numerals [str] writes, decimal digits with an
    optional minus sign; the module declares no other content length, and
    the model has [None] for every other string. *)
Definition digit_value (c : Ascii.ascii) : option Z :=
  let n := nat_of_ascii c in
  if (48 <=? n)%nat && (n <=? 57)%nat then Some (Z.of_nat (n - 48)) else None.

Fixpoint parse_digits (acc : Z) (s : string) : option Z :=
  match s with
  | EmptyString => Some acc
  | String c s' =>
      match digit_value c with
      | Some d => parse_digits (10 * acc + d) s'
      | None => None
      end
  end.

Definition int_of_str (s : string) : option Z :=
  match s with
  | EmptyString => None
  | String c s' =>
      if Ascii.eqb c "-"%char then
        match s' with
        | EmptyString => None
        | _ => Z.opp <$> parse_digits 0 s'
        end
      else parse_digits 0 s
  end.

(** ** The world and the events of a call *)

Record Network := {
  http_get : string -> option string;
  http_post : string -> option Z
}.

(** A multipart file field that reached the server behind a URL. *)
Record Upload := {
  up_url : string;
  up_field : string;
  up_name : string;
  up_data : bytes
}.

(** [services] holds the records that are live on the local network, by
    instance name; [timely name] tells whether a query for [name] gets its
    answer before the lookup times out.  [sites] holds the applications
    listening on this host, by the port their site was started with; a
    site started with port 0 listens on a port of the kernel's choosing,
    and the entry at 0 is the latest such site.  [received] lists the
    uploads that servers of the network have taken, oldest first. *)
Record World := {
  services : gmap string ServiceInfo;
  timely : string -> bool;
  fs : FileSystem;
  net : Network;
  sites : gmap Z App;
  received : list Upload
}.

(** One externally visible action of a call.  A registration and a bind
    carry whether they went through. *)
Inductive event :=
| EvQuery (type_ name : string)
| EvRegister (info : ServiceInfo) (accepted : bool)
| EvZip (paths : list string)
| EvListen (host port : string) (bound : bool)
| EvPrint (line : string)
| EvGet (url : string)
| EvPost (url field name : string) (data : bytes).

(** ** The monad: state, exceptions, trace, and the call that never
    returns ([loop.run_forever()]). *)

Inductive result (A : Type) :=
| Returned (a : A)
| Raised (e : exn)
| Forever.
Arguments Returned {A} a.
Arguments Raised {A} e.
Arguments Forever {A}.

Record run (A : Type) := Run {
  outcome : result A;
  final : World;
  events : list event
}.
Arguments Run {A} _ _ _.
Arguments outcome {A} _.
Arguments final {A} _.
Arguments events {A} _.

Definition M (A : Type) : Type := World -> run A.

Definition ret {A} (a : A) : M A := fun w => Run (Returned a) w [].

Definition raise {A} (e : exn) : M A := fun w => Run (Raised e) w [].

Definition bind {A B} (m : M A) (k : A -> M B) : M B := fun w =>
  match m w with
  | Run (Returned a) w' evs =>
      match k a w' with
      | Run o w'' evs' => Run o w'' (evs ++ evs')
      end
  | Run (Raised e) w' evs => Run (Raised e) w' evs
  | Run Forever w' evs => Run Forever w' evs
  end.

Notation "x <- m ;; k" := (bind m (fun x => k))
  (at level 100, m at next level, right associativity).
Notation "m ;;; k" := (bind m (fun _ => k))
  (at level 100, right associativity).

Definition emit (e : event) : M unit := fun w => Run (Returned tt) w [e].

Definition get_world : M World := fun w => Run (Returned w) w [].

Definition print (line : string) : M unit := emit (EvPrint line).

(** ** Library calls the module makes *)

Definition with_services (s : gmap string ServiceInfo) (w : World) : World :=
  {| services := s; timely := timely w; fs := fs w; net := net w;
     sites := sites w; received := received w |}.

Definition with_fs (f : FileSystem) (w : World) : World :=
  {| services := services w; timely := timely w; fs := f; net := net w;
     sites := sites w; received := received w |}.

Definition with_sites (s : gmap Z App) (w : World) : World :=
  {| services := services w; timely := timely w; fs := fs w;
     net := net w; sites := s; received := received w |}.

Definition with_received (u : list Upload) (w : World) : World :=
  {| services := services w; timely := timely w; fs := fs w;
     net := net w; sites := sites w; received := u |}.

(** What a bounded-time lookup of [name] resolves to: the live record if
    it answers in time, nothing otherwise. *)
Definition lookup_service (w : World) (name : string) : option ServiceInfo :=
  if timely w name then services w !! name else None.

(** [zeroconf.get_service_info(type_, name)] *)
Definition get_service_info (type_ name : string) : M (option ServiceInfo) :=
  fun w => Run (Returned (lookup_service w name)) w [EvQuery type_ name].

(** [zeroconf.register_service(info)]: probes for the name, raises
    [NonUniqueNameException] when a record answers, announces otherwise. *)
Definition register_service (info : ServiceInfo) : M unit := fun w =>
  match services w !! si_name info with
  | Some _ => Run (Raised NonUniqueNameException) w [EvRegister info false]
  | None =>
      Run (Returned tt)
          (with_services (<[si_name info := info]> (services w)) w)
          [EvRegister info true]
  end.

Definition os_path_isdir (p : string) : M bool :=
  fun w => Run (Returned (isdir (fs w) p)) w [].

Definition os_path_realpath (p : string) : M string :=
  fun w => Run (Returned (realpath (fs w) p)) w [].

(** [os.stat(p).st_size] *)
Definition os_stat_st_size (p : string) : M Z := fun w =>
  match nodes (fs w) !! realpath (fs w) p with
  | Some (RegularFile d) => Run (Returned (Z.of_nat (length d))) w []
  | Some (Directory sz) => Run (Returned sz) w []
  | None => Run (Raised FileNotFoundError) w []
  end.

(** [open(p, "rb")] *)
Definition open_rb (p : string) : M file_obj := fun w =>
  match nodes (fs w) !! realpath (fs w) p with
  | Some (RegularFile d) => Run (Returned {| f_data := d; f_pos := 0 |}) w []
  | Some (Directory _) => Run (Raised IsADirectoryError) w []
  | None => Run (Raised FileNotFoundError) w []
  end.

(** [requests.get(url).text] *)
Definition requests_get (url : string) : M string := fun w =>
  match http_get (net w) url with
  | Some t => Run (Returned t) w [EvGet url]
  | None => Run (Raised ConnectionError) w [EvGet url]
  end.

(** [requests.post(url, files={field: (name, f)})]: the rest of the open
    file is sent as one multipart field.  When the server answers, with
    whatever status, the field has reached it and the response is
    dropped; when no answer comes the call raises, and the field is taken
    not to have reached the server. *)
Definition requests_post (url field name : string) (f : file_obj) : M unit :=
  fun w =>
  let data := drop (f_pos f) (f_data f) in
  let ev := EvPost url field name data in
  match http_post (net w) url with
  | Some _ =>
      let upload := {| up_url := url; up_field := field; up_name := name;
                       up_data := data |} in
      Run (Returned tt) (with_received (received w ++ [upload]) w) [ev]
  | None => Run (Raised ConnectionError) w [ev]
  end.

(** [l[0]] and [l[-1]] *)
Definition item0 {A} (l : list A) : M A :=
  match l with
  | x :: _ => ret x
  | [] => raise IndexError
  end.

Definition item_last {A} (l : list A) : M A :=
  match last l with
  | Some x => ret x
  | None => raise IndexError
  end.

(** [socket.inet_ntoa(packed)]: dotted decimal of four bytes. *)
Definition dotted_quad (packed : bytes) : string :=
  String.concat "." (map (fun b => pretty (Byte.to_N b)) packed).

Definition inet_ntoa (packed : bytes) : M string :=
  if decide (length packed = 4%nat) then ret (dotted_quad packed)
  else raise OSError.

(** [web.TCPSite(runner, host, str(port))] and [site.start()]: a port
    number outside 0..65535 is refused with [OverflowError]; a port that a
    site of this host listens on is refused with [OSError]; port 0 asks
    the kernel for a free port and is never found taken. *)
Definition site_start (app : App) (host : string) (port : Z) : M unit :=
  fun w =>
  if decide (0 <= port <= 65535) then
    match (if decide (port = 0) then None else sites w !! port) with
    | Some _ => Run (Raised OSError) w [EvListen host (str port) false]
    | None =>
        Run (Returned tt) (with_sites (<[port := app]> (sites w)) w)
            [EvListen host (str port) true]
    end
  else Run (Raised OverflowError) w [EvListen host (str port) false].

(** [loop.run_forever()] *)
Definition run_forever {A} : M A := fun w => Run Forever w [].

(** A value used where Python needs a [str]. *)
Definition as_str (v : pyval) : M string :=
  match v with
  | PStr s => ret s
  | _ => raise TypeError
  end.

(** The helpers of the package ([airshare/utils.py]) and of third
    parties whose code is not in this module.  They are parameters of
    the development: every property holds whatever they compute.
    [get_zip_file] archives the given paths into one file at a temporary
    location and returns the path of the archive and a generated name;
    it may fail, and the file system is all it can change. *)
Class Libs := {
  (** [airshare.utils.get_zip_file(files)]: archive path and name. *)
  get_zip_file :
    FileSystem -> list string -> (exn + string * string) * FileSystem;
  (** [airshare.utils.get_local_ip_address()]: the packed address. *)
  get_local_ip_address : Network -> bytes;
  (** [magic.Magic(mime=True)] on the bytes of a file. *)
  magic_mime : bytes -> string;
  (** [humanize.naturalsize] *)
  naturalsize : Z -> string;
  (** [pyqrcode.create(url).terminal(quiet_zone=1)] *)
  qr_terminal : string -> string
}.

Section Sender.

Context `{Libs}.

Definition get_zip_file_call (files : list string) : M (string * string) :=
  fun w =>
  let '(r, fs') := get_zip_file (fs w) files in
  Run (match r with inl e => Raised e | inr x => Returned x end)
      (with_fs fs' w) [EvZip files].

(** [magic.Magic(mime=True).from_file(path)] *)
Definition magic_from_file (p : string) : M string := fun w =>
  match nodes (fs w) !! realpath (fs w) p with
  | Some (RegularFile d) => Run (Returned (magic_mime d)) w []
  | Some (Directory _) => Run (Returned "inode/directory") w []
  | None => Run (Raised FileNotFoundError) w []
  end.

(** ** Request handlers *)

Definition peer_address (request : Request) : string :=
  match peername request with
  | Some (host, _) => " (by " ++ host ++ ")"
  | None => EmptyString
  end.

Definition app_get {A} (key : string) (field : option A) : M A :=
  match field with
  | Some v => ret v
  | None => raise (KeyError key)
  end.

(** GET handler for route '/' of a text sender. *)
Definition _text_sender (request : Request) (app : App) : M Response :=
  let address := peer_address request in
  print ("Content requested" ++ address ++ ", transferred!") ;;;
  text <- app_get "text" (app_text app) ;;
  text <- as_str text ;;
  ret (text_response "text/plain" text).

Definition dq : string := String (ascii_of_nat 34) EmptyString.
Definition nl : string := String (ascii_of_nat 10) EmptyString.

Definition download_page_html (file_name file_size : string) : string :=
  nl ++
  "        <!DOCTYPE html>" ++ nl ++
  "        <html lang=" ++ dq ++ "en" ++ dq ++ ">" ++ nl ++
  "        <head>" ++ nl ++
  "        <meta charset=" ++ dq ++ "UTF-8" ++ dq ++ ">" ++ nl ++
  "        <title>Airshare Download</title>" ++ nl ++
  "        </head>" ++ nl ++
  "        <body>" ++ nl ++
  "        <form action=" ++ dq ++ "/download" ++ dq ++ " method=" ++ dq
    ++ "get" ++ dq ++ ">" ++ nl ++
  "            <input type=" ++ dq ++ "submit" ++ dq ++ " value=" ++ dq
    ++ "Download " ++ file_name ++ " (" ++ file_size ++ ")" ++ dq ++ "/>"
    ++ nl ++
  "        </form>" ++ nl ++
  "        </body>" ++ nl ++
  "        </html>" ++ nl ++
  "    ".

(** GET handler for route '/' of a file sender. *)
Definition _download_page (request : Request) (app : App) : M Response :=
  file_name <- app_get "file_name" (app_file_name app) ;;
  file_size <- app_get "file_size" (app_file_size app) ;;
  let file_size := naturalsize file_size in
  ret (text_response "text/html" (download_page_html file_name file_size)).

Definition msg_header_injection : string :=
  "Newline or carriage return detected in headers."
  ++ " Potential header injection attack.".

Definition msg_invalid_literal (v : string) : string :=
  "invalid literal for int() with base 10: '" ++ v ++ "'".

(** [await response.prepare(request)]: the declared content length, if
    any, becomes the limit of the payload writer, and the headers are
    sent; a header value holding a carriage return or a line feed is
    refused with [ValueError], and nothing is sent. *)
Definition prepare (request : Request) (r : Response) : M Response :=
  declared <- match headers r !! "content-length" with
            | None => ret None
            | Some v =>
                match int_of_str v with
                | Some n => ret (Some n)
                | None => raise (ValueError (msg_invalid_literal v))
                end
            end ;;
  if bool_decide (map_Forall (fun _ v => has_newline v = false) (headers r))
  then ret {| status := status r; headers := headers r; body := body r;
              allowance := declared |}
  else raise (ValueError msg_header_injection).

Definition chunk_size : nat := Z.to_nat 8192.

(** The loop of [_file_stream_sender]:
    [while chunk: await response.write(chunk); chunk = f.read(8192)]. *)
Equations? stream_loop (f : file_obj) (chunk : bytes) (response : Response)
  : Response * file_obj
  by wf (length (f_data f) - f_pos f + length chunk)%nat lt :=
stream_loop f [] response := (response, f);
stream_loop f (b :: c) response :=
  stream_loop (f_read chunk_size f).2 (f_read chunk_size f).1
              (write (b :: c) response).
Proof.
  rewrite length_take, length_drop. lia.
Qed.

(** GET handler for route '/download'. *)
Definition _file_stream_sender (request : Request) (app : App) : M Response :=
  let address := peer_address request in
  print ("Content requested" ++ address ++ ", transferred!") ;;;
  let response := stream_response in
  file_path <- app_get "file_path" (app_file_path app) ;;
  file_name <- app_get "file_name" (app_file_name app) ;;
  file_size <- app_get "file_size" (app_file_size app) ;;
  let file_size := str file_size in
  let header := "attachment; filename=" ++ file_name ++ "; size=" ++ file_size in
  mime <- magic_from_file file_path ;;
  let response := set_header "content-type" mime response in
  size <- app_get "file_size" (app_file_size app) ;;
  let response := set_header "content-length" (str size) response in
  let response := set_header "content-disposition" header response in
  response <- prepare request response ;;
  f <- open_rb file_path ;;
  let '(chunk, f) := f_read chunk_size f in
  let '(response, f) := stream_loop f chunk response in
  ret response.

(** GET handlers for route '/airshare'. *)
Definition _is_airshare_text_sender (request : Request) (app : App)
  : M Response :=
  ret (text_response "text/plain" "Text Sender").

Definition _is_airshare_file_sender (request : Request) (app : App)
  : M Response :=
  ret (text_response "text/plain" "File Sender").

Definition run_handler (h : handler) : Request -> App -> M Response :=
  match h with
  | H_text_sender => _text_sender
  | H_download_page => _download_page
  | H_file_stream_sender => _file_stream_sender
  | H_is_airshare_text_sender => _is_airshare_text_sender
  | H_is_airshare_file_sender => _is_airshare_file_sender
  end.

(** The router resolves a path to the first route registered for it. *)
Fixpoint resolve (path : string) (routes : list (string * handler))
  : option handler :=
  match routes with
  | [] => None
  | (p, h) :: rest => if decide (p = path) then Some h else resolve path rest
  end.

Definition not_found : Response :=
  {| status := 404; headers := ∅; body := Text "404: Not Found";
     allowance := None |}.

Definition method_not_allowed : Response :=
  {| status := 405; headers := ∅; body := Text "405: Method Not Allowed";
     allowance := None |}.

(** One request served by the application.  Every route of the module is
    added with [add_get], which registers the handler for GET and for
    HEAD: the handler runs for both.  The response is the object the
    handler returns; how much of it the server sends in answer to a HEAD
    request is not part of the model. *)
Definition serve (app : App) (request : Request) : M Response :=
  match resolve (req_path request) (router app) with
  | None => ret not_found
  | Some h =>
      if decide (req_method request = "GET")
      then run_handler h request app
      else if decide (req_method request = "HEAD")
      then run_handler h request app
      else ret method_not_allowed
  end.

(** ** Sender functions *)

Definition service : string := "_airshare._http._tcp.local.".

(** [compress or len(file) > 1 or os.path.isdir(file[0])], evaluated
    left to right. *)
Definition zip_needed (compress : bool) (file : list string) : M bool :=
  if compress then ret true
  else if decide (1 < length file)%nat then ret true
  else first <- item0 file ;; os_path_isdir first.

(** [send(code=..., file=..., compress=...)]: upload to a receiving
    server; returns 0 if successful and 1 on failure. *)
Definition send (code : string) (file : option file_arg) (compress : bool)
  : M Z :=
  info <- get_service_info service (code ++ service) ;;
  match info with
  | None =>
      print ("The airshare `" ++ code ++ ".local` does not exist!") ;;;
      ret 1
  | Some info =>
      file <- match file with
              | Some (FStr s) =>
                  if decide (s = EmptyString) then ret None else ret (Some [s])
              | Some (FList l) =>
                  if decide (length l = 0%nat) then ret None else ret (Some l)
              | None => raise TypeError
              end ;;
      match file with
      | None => raise (ValueError "The parameter `file` must be non-empty!")
      | Some file =>
          zip <- zip_needed compress file ;;
          packaged <- (if zip : bool then get_zip_file_call file
                       else first <- item0 file ;;
                            name <- item_last (split os_path_sep first) ;;
                            ret (first, name)) ;;
          let '(file, name) := packaged in
          packed <- item0 (si_addresses info) ;;
          ip <- inet_ntoa packed ;;
          let url := "http://" ++ ip ++ ":" ++ str (si_port info) in
          airshare_type <- requests_get (url ++ "/airshare") ;;
          if decide (airshare_type ≠ "Upload Receiver") then
            print ("The airshare `" ++ code
                   ++ ".local` is not an upload receiver!") ;;;
            ret 1
          else
            f <- open_rb file ;;
            requests_post (url ++ "/upload") "upload_file" name f ;;;
            print ("Uploaded `" ++ name ++ "` to airshare `" ++ code
                   ++ ".local`!") ;;;
            ret 0
      end
  end.

Definition set_text (v : pyval) (app : App) : App :=
  {| app_text := Some v; app_file_path := app_file_path app;
     app_file_name := app_file_name app; app_file_size := app_file_size app;
     router := router app |}.

Definition set_file_path (v : string) (app : App) : App :=
  {| app_text := app_text app; app_file_path := Some v;
     app_file_name := app_file_name app; app_file_size := app_file_size app;
     router := router app |}.

Definition set_file_name (v : string) (app : App) : App :=
  {| app_text := app_text app; app_file_path := app_file_path app;
     app_file_name := Some v; app_file_size := app_file_size app;
     router := router app |}.

Definition set_file_size (v : Z) (app : App) : App :=
  {| app_text := app_text app; app_file_path := app_file_path app;
     app_file_name := app_file_name app; app_file_size := Some v;
     router := router app |}.

(** [send_server(code=..., text=..., file=..., compress=..., port=...)]:
    serve a text or a file and register it as a multicast-DNS service. *)
Definition send_server (code : string) (text : option string)
    (file : option file_arg) (compress : bool) (port : Z) : M unit :=
  info <- get_service_info service (code ++ service) ;;
  match info with
  | Some _ =>
      raise (ValueError ("`" ++ code
                         ++ "` already exists, please use a different code!"))
  | None =>
      let file : option (list string) :=
        match file with
        | Some (FStr s) => if decide (s = EmptyString) then None else Some [s]
        | Some (FList l) => if decide (length l = 0%nat) then None else Some l
        | None => None
        end in
      let content : pyval :=
        if truthy_str text then from_option PStr PNone text
        else from_option PList PNone file in
      let name : option string := None in
      packaged <-
        match content with
        | PNone =>
            raise (ValueError ("Either `file` or `text` (keyword arguments) must be"
                               ++ " given and non-empty!"))
        | _ =>
            match text, file with
            | None, Some file =>
                zip <- zip_needed compress file ;;
                if zip : bool then
                  zipped <- get_zip_file_call file ;;
                  let '(archive, archive_name) := zipped in
                  ret (PStr archive, Some archive_name)
                else
                  first <- item0 file ;;
                  ret (PStr first, name)
            | _, _ => ret (content, name)
            end
        end ;;
      let '(content, name) := packaged in
      network <- get_world ;;
      let addresses := [get_local_ip_address (net network)] in
      let info := {| si_type := service; si_name := code ++ service;
                     si_addresses := addresses; si_port := port;
                     si_server := code ++ ".local." |} in
      register_service info ;;;
      let app := new_app in
      let file_size := EmptyString in
      configured <-
        match text with
        | Some _ =>
            let app := set_text content app in
            let app := add_get "/" H_text_sender app in
            let app := add_get "/airshare" H_is_airshare_text_sender app in
            ret (app, content, file_size)
        | None =>
            match file with
            | Some _ =>
                path <- as_str content ;;
                file_path <- os_path_realpath path ;;
                let app := set_file_path file_path app in
                file_name <-
                  match name with
                  | Some n =>
                      if decide (n ≠ EmptyString) then ret n
                      else item_last (split os_path_sep file_path)
                  | None => item_last (split os_path_sep file_path)
                  end ;;
                let app := set_file_name file_name app in
                st_size <- os_stat_st_size file_path ;;
                let app := set_file_size st_size app in
                let file_size := " (" ++ naturalsize st_size ++ ") " in
                let content := PStr file_name in
                let app := add_get "/" H_download_page app in
                let app := add_get "/airshare" H_is_airshare_file_sender app in
                let app := add_get "/download" H_file_stream_sender app in
                ret (app, content, file_size)
            | None => ret (app, content, file_size)
            end
        end ;;
      let '(app, content, file_size) := configured in
      site_start app "0.0.0.0" port ;;;
      let url_port := if decide (port ≠ 80) then ":" ++ str port
                      else EmptyString in
      packed <- item0 (si_addresses info) ;;
      ip <- inet_ntoa packed ;;
      content <- as_str content ;;
      print ("`" ++ content ++ "`" ++ file_size ++ "available at " ++ ip
             ++ url_port ++ " and `http://" ++ code ++ ".local" ++ url_port
             ++ "`, press CtrlC" ++ " to stop sharing...") ;;;
      print (qr_terminal ("http://" ++ ip ++ url_port)) ;;;
      run_forever
  end.

(** The keyword arguments handed to the process. *)
Record Kwargs := {
  kw_code : string;
  kw_file : option file_arg;
  kw_text : option string;
  kw_compress : bool;
  kw_port : Z
}.

(** [multiprocessing.Process(target=..., kwargs=...)]: an object that has
    not been started. *)
Record Process := {
  target : Kwargs -> M unit;
  kwargs : Kwargs;
  started : bool
}.

Definition new_process (target : Kwargs -> M unit) (kwargs : Kwargs)
  : Process :=
  {| target := target; kwargs := kwargs; started := false |}.

(** [process.run()]: what the child does once [process.start()] is
    called. *)
Definition process_run (p : Process) : M unit := target p (kwargs p).

(** [send_server] called with the keyword arguments unpacked. *)
Definition send_server_kw (k : Kwargs) : M unit :=
  send_server (kw_code k) (kw_text k) (kw_file k) (kw_compress k) (kw_port k).

(** [send_server_proc(...)]: a process with [send_server] as the target. *)
Definition send_server_proc (code : string) (text : option string)
    (file : option file_arg) (compress : bool) (port : Z) : M Process :=
  let kwargs := {| kw_code := code; kw_file := file; kw_text := text;
                   kw_compress := compress; kw_port := port |} in
  let process := new_process send_server_kw kwargs in
  ret process.

End Sender.

(** ** Reading a trace *)

Definition is_query (e : event) : bool :=
  match e with EvQuery _ _ => true | _ => false end.

Definition is_register (e : event) : bool :=
  match e with EvRegister _ _ => true | _ => false end.

Definition is_listen (e : event) : bool :=
  match e with EvListen _ _ _ => true | _ => false end.

Definition is_http (e : event) : bool :=
  match e with EvGet _ | EvPost _ _ _ _ => true | _ => false end.

Definition is_post (e : event) : bool :=
  match e with EvPost _ _ _ _ => true | _ => false end.


(** A call performs no action of a kind when no event of its trace is of
    that kind. *)
Definition performs_no {A} (kind : event -> bool) (r : run A) : Prop :=
  Forall (fun e => kind e = false) (events r).

(** The paths a [file] argument stands for, [[]] when it is empty. *)
Definition paths_of (file : file_arg) : list string :=
  match file with
  | FStr s => if decide (s = EmptyString) then [] else [s]
  | FList l => l
  end.

(** The address [send] talks to, for a resolved record. *)
Definition base_url (info : ServiceInfo) (packed : bytes) : string :=
  "http://" ++ dotted_quad packed ++ ":" ++ str (si_port info).

(** The messages of the module. *)
Definition msg_exists (code : string) : string :=
  "`" ++ code ++ "` already exists, please use a different code!".

Definition msg_absent (code : string) : string :=
  "The airshare `" ++ code ++ ".local` does not exist!".

Definition msg_empty : string := "The parameter `file` must be non-empty!".

Definition msg_uploaded (name code : string) : string :=
  "Uploaded `" ++ name ++ "` to airshare `" ++ code ++ ".local`!".

Definition is_zip (e : event) : bool :=
  match e with EvZip _ => true | _ => false end.

Definition msg_missing : string :=
  "Either `file` or `text` (keyword arguments) must be"
  ++ " given and non-empty!".

Definition msg_mismatch (code : string) : string :=
  "The airshare `" ++ code ++ ".local` is not an upload receiver!".

(** ** A small network for running the model

    Two services answer on the network: [desk], an upload receiver, and
    [shelf], a file sender.  The host has one file, one directory and a
    symbolic link. *)

Definition demo_libs : Libs := {|
  get_zip_file := fun fs files =>
    (inr ("/tmp/airshare.zip", "airshare.zip"),
     {| realpath := realpath fs;
        nodes := <["/tmp/airshare.zip" := RegularFile [x50; x4b; x05; x06]]>
                   (nodes fs) |});
  get_local_ip_address := fun _ => [xc0; xa8; x01; x05];
  magic_mime := fun _ => "application/octet-stream";
  naturalsize := fun n => str n ++ " Bytes";
  qr_terminal := fun url => "[QR " ++ url ++ "]"
|}.

Definition demo_realpath (p : string) : string :=
  if decide (p = "latest") then "/home/u/a.txt"
  else match p with
       | String "/" _ => p
       | _ => "/home/u/" ++ p
       end.

Definition desk : ServiceInfo :=
  {| si_type := service; si_name := "desk" ++ service;
     si_addresses := [[xc0; xa8; x01; x07]]; si_port := 8000;
     si_server := "desk.local." |}.

Definition shelf : ServiceInfo :=
  {| si_type := service; si_name := "shelf" ++ service;
     si_addresses := [[xc0; xa8; x01; x09]]; si_port := 80;
     si_server := "shelf.local." |}.

Definition demo_get (url : string) : option string :=
  if decide (url = "http://192.168.1.7:8000/airshare") then Some "Upload Receiver"
  else if decide (url = "http://192.168.1.9:80/airshare") then Some "File Sender"
  else None.

Definition demo_post (url : string) : option Z :=
  if decide (url = "http://192.168.1.7:8000/upload") then Some 200 else None.

Definition big_file : bytes := repeat x41 (Z.to_nat 20000).

Definition demo_world : World :=
  {| services := <[si_name desk := desk]> (<[si_name shelf := shelf]> ∅);
     timely := fun _ => true;
     fs := {| realpath := demo_realpath;
              nodes := <["/home/u/a.txt" := RegularFile [x68; x69]]>
                       (<["/home/u/big.bin" := RegularFile big_file]>
                       (<["/home/u/docs" := Directory 4096]> ∅)) |};
     net := {| http_get := demo_get; http_post := demo_post |};
     sites := ∅;
     received := [] |}.

(** The same network at a moment when [desk] is live but does not answer
    queries in time. *)
Definition quiet_world : World :=
  {| services := services demo_world;
     timely := fun name => bool_decide (name ≠ si_name desk);
     fs := fs demo_world;
     net := net demo_world;
     sites := sites demo_world;
     received := received demo_world |}.

(** ** The order of registration and bind in a trace *)

(** Every bind of a listening port in [evs] comes after an accepted
    registration under [name], after no rejected registration, and before
    no registration at all. *)
Definition registration_precedes_listening (name : string)
    (evs : list event) : Prop :=
  forall pre host port bound post,
    evs = (pre ++ EvListen host port bound :: post)%list ->
    (exists info, In (EvRegister info true) pre /\ si_name info = name)
    /\ (forall info, ~ In (EvRegister info false) pre)
    /\ Forall (fun e => is_register e = false) post.

(** The same, as a scan of the trace. *)
Inductive phase := Unregistered | Registered | Rejected | Listening.

Definition phase_step (name : string) (ph : phase) (e : event)
  : option phase :=
  match e, ph with
  | EvRegister info true, Unregistered =>
      if decide (si_name info = name) then Some Registered else None
  | EvRegister info false, Unregistered => Some Rejected
  | EvRegister _ _, _ => None
  | EvListen _ _ _, Registered => Some Listening
  | EvListen _ _ _, _ => None
  | _, _ => Some ph
  end.

Fixpoint phases_ok (name : string) (ph : phase) (evs : list event) : bool :=
  match evs with
  | [] => true
  | e :: rest =>
      match phase_step name ph e with
      | Some ph' => phases_ok name ph' rest
      | None => false
      end
  end.

(** The record [send_server] announces. *)
Definition own_record `{Libs} (w : World) (code : string) (port : Z)
  : ServiceInfo :=
  {| si_type := service; si_name := code ++ service;
     si_addresses := [get_local_ip_address (net w)]; si_port := port;
     si_server := code ++ ".local." |}.

(** ** The two applications [send_server] can configure *)

Definition text_app (text : string) : App :=
  {| app_text := Some (PStr text); app_file_path := None;
     app_file_name := None; app_file_size := None;
     router := [("/", H_text_sender);
                ("/airshare", H_is_airshare_text_sender)] |}.

Definition file_app (path name : string) (size : Z) : App :=
  {| app_text := None; app_file_path := Some path;
     app_file_name := Some name; app_file_size := Some size;
     router := [("/", H_download_page);
                ("/airshare", H_is_airshare_file_sender);
                ("/download", H_file_stream_sender)] |}.

(** The headers the download handler sets. *)
Definition download_headers (mime name : string) (size : Z)
  : gmap string string :=
  <["content-disposition" :=
      "attachment; filename=" ++ name ++ "; size=" ++ str size]>
    (<["content-length" := str size]> (<["content-type" := mime]> ∅)).

(** A GET request for [path]. *)
Definition GET (path : string) (peer : option (string * Z)) : Request :=
  {| req_method := "GET"; req_path := path; peername := peer |}.

(** A request answered with status 200 and the given text as its whole
    body, after the given lines were printed and with the world left as
    it was. *)
Definition answers_text (s : run Response) (w : World)
    (printed : list event) (text : string) : Prop :=
  exists response,
    s = Run (Returned response) w printed
    /\ status response = 200
    /\ body response = Text text.

(** The two methods [add_get] registers a handler for. *)
Definition is_get_or_head (request : Request) : Prop :=
  req_method request = "GET" \/ req_method request = "HEAD".

(** The line a content-serving handler prints. *)
Definition msg_transferred (request : Request) : string :=
  "Content requested" ++ peer_address request ++ ", transferred!".

(** The port suffix and the line [send_server] prints once it serves. *)
Definition url_port (port : Z) : string :=
  if decide (port ≠ 80) then ":" ++ str port else EmptyString.

Definition msg_available (content file_size ip code : string) (port : Z)
  : string :=
  "`" ++ content ++ "`" ++ file_size ++ "available at " ++ ip
  ++ url_port port ++ " and `http://" ++ code ++ ".local" ++ url_port port
  ++ "`, press CtrlC" ++ " to stop sharing...".

(** The packaging policy: compression is forced, or more than one path
    is given, or the first path is a directory. *)
Definition zips (fs : FileSystem) (compress : bool) (paths : list string)
  : bool :=
  if compress then true
  else if decide (1 < length paths)%nat then true
  else match paths with
       | first :: _ => isdir fs first
       | [] => false
       end.

(** The last component of a path. *)
Definition basename (path : string) : string :=
  default EmptyString (last (split os_path_sep path)).

(** [os.stat(...).st_size] of a node. *)
Definition node_size (n : node) : Z :=
  match n with
  | RegularFile d => Z.of_nat (length d)
  | Directory sz => sz
  end.

(** ** Further vocabulary *)

(** Whether the path separator occurs in a string. *)
Fixpoint has_sep (s : string) : bool :=
  match s with
  | EmptyString => false
  | String c s' => Ascii.eqb c os_path_sep || has_sep s'
  end.

(** [name] is the last component of [path]: it holds no separator, and
    it is the whole path or what follows a separator at the end of it. *)
Definition is_last_component (path name : string) : Prop :=
  has_sep name = false
  /\ (path = name \/ exists dir, path = dir ++ String os_path_sep name).

(** [sep.join(pieces)] *)
Definition sep_join (sep : Ascii.ascii) (pieces : list string) : string :=
  String.concat (String sep EmptyString) pieces.

(** The application [send_server] binds when it is given the empty string
    as text and a path list as file. *)
Definition paths_as_text_app (paths : list string) : App :=
  {| app_text := Some (PList paths); app_file_path := None;
     app_file_name := None; app_file_size := None;
     router := [("/", H_text_sender);
                ("/airshare", H_is_airshare_text_sender)] |}.

(** Helpers whose archiver always fails. *)
Definition failing_libs : Libs := {|
  get_zip_file := fun fs files => (inl ZipFailure, fs);
  get_local_ip_address := fun _ => [xc0; xa8; x01; x05];
  magic_mime := fun _ => "application/octet-stream";
  naturalsize := fun n => str n ++ " Bytes";
  qr_terminal := fun url => "[QR " ++ url ++ "]"
|}.

(** The small network after [me] has started serving [a.txt] on port
    8080, seen from a client whose HTTP requests reach that server. *)
Definition served_world : World :=
  let w := final (send_server (H := demo_libs) "me" None
                    (Some (FStr "a.txt")) false 8080 demo_world) in
  {| services := services w;
     timely := timely w;
     fs := fs w;
     net := {| http_get := fun url =>
                 if decide (url = "http://192.168.1.5:8080/airshare")
                 then Some "File Sender" else demo_get url;
               http_post := demo_post |};
     sites := sites w;
     received := received w |}.

(** The small network after [a.txt] has grown by one byte. *)
Definition grown_world : World :=
  with_fs {| realpath := demo_realpath;
             nodes := <["/home/u/a.txt" := RegularFile [x68; x69; x21]]>
                        (nodes (fs demo_world)) |}
          demo_world.

(** A file whose name holds a line feed, on the small network. *)
Definition odd_name : string := "a" ++ nl ++ "b.txt".

Definition odd_world : World :=
  with_fs {| realpath := demo_realpath;
             nodes := <["/home/u/" ++ odd_name := RegularFile [x68; x69]]>
                        (nodes (fs demo_world)) |}
          demo_world.

(** * Properties *)

(** The monad and the library calls unfold as soon as they are applied to
    a world, so that [cbn] runs a call up to the next question it asks the
    world. *)
Arguments bind {A B} m k w /.
Arguments ret {A} a w /.
Arguments raise {A} e w /.
Arguments emit e w /.
Arguments print line w /.
Arguments get_world w /.
Arguments run_forever {A} w /.
Arguments get_service_info type_ name w /.
Arguments register_service info w /.
Arguments os_path_isdir p w /.
Arguments os_path_realpath p w /.
Arguments os_stat_st_size p w /.
Arguments open_rb p w /.
Arguments requests_get url w /.
Arguments requests_post url field name f w /.
Arguments item0 {A} l w /.
Arguments item_last {A} l w /.
Arguments inet_ntoa packed w /.
Arguments site_start app host port w /.
Arguments as_str v w /.
Arguments get_zip_file_call {H} files w /.
Arguments magic_from_file {H} p w /.
Arguments app_get {A} key field w /.
Arguments zip_needed compress file w /.

(** Case analysis on the innermost question of the goal. *)
Ltac split_goal :=
  match goal with
  | |- context [match ?x with _ => _ end] =>
      lazymatch x with
      | context [match _ with _ => _ end] => fail
      | _ => destruct x eqn:?
      end
  end.

(** [s.split(sep)] has a last piece. *)
Lemma split_not_nil (sep : Ascii.ascii) (s : string) : split sep s <> [].
Proof.
  destruct s as [| c s]; cbn; [discriminate |].
  destruct (Ascii.eqb c sep); [discriminate |].
  destruct (split sep s); discriminate.
Qed.

Lemma last_split_None (sep : Ascii.ascii) (s : string) :
  last (split sep s) = None -> False.
Proof.
  intros Hlast. apply last_None in Hlast.
  exact (split_not_nil sep s Hlast).
Qed.

Ltac split_has_last :=
  match goal with
  | Hl : last (split _ _) = None |- _ =>
      exfalso; exact (last_split_None _ _ Hl)
  end.

Ltac zip_cannot_fail :=
  match goal with
  | Hz : forall e, (get_zip_file ?a ?b).1 <> inl e,
    Heq : get_zip_file ?a ?b = (inl ?e, _) |- _ =>
      exfalso; apply (Hz e); rewrite Heq; reflexivity
  end.

Ltac double_negation :=
  match goal with
  | Hn : ~ ?x <> ?y |- _ => exfalso; apply Hn; congruence
  end.

Ltac finish :=
  try discriminate; try congruence; try zip_cannot_fail;
  try double_negation; try split_has_last;
  try (repeat (constructor; cbn); congruence).

Ltac run_all := repeat (cbn in *; finish; split_goal).

(** An event that cannot be in the trace at hand. *)
Ltac not_in_trace :=
  let Hin := fresh "Hin" in
  intros Hin;
  repeat (destruct Hin as [Hin | Hin]; try discriminate Hin);
  contradiction.

(** ** Decimal numerals and header values *)

Lemma digit_value_pretty (d : N) :
  (d < 10)%N -> digit_value (pretty_N_char d) = Some (Z.of_N d).
Proof.
  intros Hd.
  assert (Hcases : (d = 0 \/ d = 1 \/ d = 2 \/ d = 3 \/ d = 4 \/ d = 5
                    \/ d = 6 \/ d = 7 \/ d = 8 \/ d = 9)%N) by lia.
  repeat (destruct Hcases as [-> | Hcases]; [reflexivity |]).
  subst d. reflexivity.
Qed.

(** Reading the digits of [x] multiplies what was read before by a power
    of ten and adds [x]. *)
Lemma parse_digits_pretty_go (x : N) :
  exists k : Z, forall (s : string) (acc : Z),
    parse_digits acc (pretty_N_go x s) = parse_digits (acc * k + Z.of_N x) s.
Proof.
  induction (N.lt_wf_0 x) as [x _ IH].
  destruct (decide (x = 0%N)) as [-> | Hpos].
  - exists 1. intros s acc. rewrite pretty_N_go_0. f_equal. lia.
  - destruct (IH (x `div` 10)%N) as [k Hk].
    { apply N.div_lt; lia. }
    exists (10 * k). intros s acc.
    rewrite pretty_N_go_step by lia. rewrite Hk. cbn [parse_digits].
    rewrite digit_value_pretty by (apply N.mod_lt; lia).
    f_equal.
    assert (Hdm : x = (10 * (x `div` 10) + x `mod` 10)%N)
      by (apply N.div_mod; lia).
    assert (Hz : Z.of_N x
                 = 10 * Z.of_N (x `div` 10) + Z.of_N (x `mod` 10)) by lia.
    lia.
Qed.

Lemma parse_digits_positive (p : positive) :
  parse_digits 0 (pretty_N_go (Npos p) EmptyString) = Some (Zpos p).
Proof.
  destruct (parse_digits_pretty_go (Npos p)) as [k Hk].
  rewrite Hk. cbn [parse_digits]. f_equal.
Qed.

Lemma pretty_positive_unfold (p : positive) :
  pretty p = pretty_N_go (Npos p) EmptyString.
Proof. reflexivity. Qed.

(** [int(str(z))] is [z]. *)
Lemma int_of_str_str (z : Z) : int_of_str (str z) = Some z.
Proof.
  unfold str.
  assert (Hpos : forall p : positive,
             match pretty_N_go (Npos p) EmptyString with
             | EmptyString => False
             | String c _ => Ascii.eqb c "-"%char = false
             end).
  { intros p. pose proof (parse_digits_positive p) as Hparse.
    destruct (pretty_N_go (Npos p) EmptyString) as [| c s'] eqn:Hs.
    - cbn in Hparse. discriminate.
    - destruct (Ascii.eqb_spec c "-"%char) as [-> | Hne]; [| reflexivity].
      exfalso. apply (pretty_N_go_ne_dash (Npos p) EmptyString s');
        [discriminate | exact Hs]. }
  destruct z as [| p | p].
  - reflexivity.
  - change (pretty (Zpos p)) with (pretty_N_go (Npos p) EmptyString).
    specialize (Hpos p). pose proof (parse_digits_positive p) as Hparse.
    destruct (pretty_N_go (Npos p) EmptyString) as [| c s']; [contradiction |].
    unfold int_of_str. rewrite Hpos. exact Hparse.
  - change (pretty (Zneg p))
      with (String "-"%char (pretty_N_go (Npos p) EmptyString)).
    specialize (Hpos p). pose proof (parse_digits_positive p) as Hparse.
    unfold int_of_str. cbn [Ascii.eqb Bool.eqb].
    destruct (pretty_N_go (Npos p) EmptyString) as [| c s']; [contradiction |].
    rewrite Hparse. reflexivity.
Qed.

Lemma has_newline_app (a b : string) :
  has_newline (a ++ b) = has_newline a || has_newline b.
Proof.
  induction a as [| c a IH]; [reflexivity |].
  change (String c a ++ b) with (String c (a ++ b)).
  cbn [has_newline]. rewrite IH. rewrite orb_assoc. reflexivity.
Qed.

Lemma pretty_N_char_plain (d : N) :
  Ascii.eqb (pretty_N_char d) (ascii_of_nat 13)
  || Ascii.eqb (pretty_N_char d) (ascii_of_nat 10) = false.
Proof. unfold pretty_N_char. repeat case_match; reflexivity. Qed.

Lemma has_newline_pretty_go (x : N) (s : string) :
  has_newline (pretty_N_go x s) = has_newline s.
Proof.
  revert s. induction (N.lt_wf_0 x) as [x _ IH]. intros s.
  destruct (decide (x = 0%N)) as [-> | Hpos].
  - rewrite pretty_N_go_0. reflexivity.
  - rewrite pretty_N_go_step by lia.
    rewrite IH by (apply N.div_lt; lia).
    cbn [has_newline]. rewrite pretty_N_char_plain. reflexivity.
Qed.

(** A decimal numeral has no line break. *)
Lemma has_newline_str (z : Z) : has_newline (str z) = false.
Proof.
  unfold str. destruct z as [| p | p].
  - reflexivity.
  - change (pretty (Zpos p)) with (pretty_N_go (Npos p) EmptyString).
    apply has_newline_pretty_go.
  - change (pretty (Zneg p))
      with (String "-"%char (pretty_N_go (Npos p) EmptyString)).
    cbn [has_newline]. rewrite has_newline_pretty_go. reflexivity.
Qed.

(** A string without control characters has no line break. *)
Lemma has_control_newline (s : string) :
  has_control s = false -> has_newline s = false.
Proof.
  induction s as [| c s IH]; [reflexivity |].
  cbn [has_control has_newline]. intros Hc.
  apply orb_false_iff in Hc as [Hc Hs]. rewrite (IH Hs), orb_false_r.
  destruct (Ascii.eqb_spec c (ascii_of_nat 13)) as [-> | _];
    [vm_compute in Hc; discriminate |].
  destruct (Ascii.eqb_spec c (ascii_of_nat 10)) as [-> | _];
    [vm_compute in Hc; discriminate |].
  reflexivity.
Qed.

(** The three headers of a download pass [prepare] when the type and the
    name have no line break. *)
Lemma download_headers_safe (mime name : string) (size : Z) :
  has_newline mime = false ->
  has_newline name = false ->
  bool_decide
    (map_Forall (fun (_ : string) v => has_newline v = false)
       (headers
          (set_header "content-disposition"
             ("attachment; filename=" ++ name ++ "; size=" ++ str size)
             (set_header "content-length" (str size)
                (set_header "content-type" mime stream_response)))))
  = true.
Proof.
  intros Hmime Hname. apply bool_decide_eq_true_2. cbn [set_header headers].
  apply map_Forall_insert_2.
  { rewrite !has_newline_app, Hname, has_newline_str. reflexivity. }
  apply map_Forall_insert_2; [apply has_newline_str |].
  apply map_Forall_insert_2; [exact Hmime |].
  apply map_Forall_empty.
Qed.

(** They do not pass when the name has one. *)
Lemma download_headers_unsafe (mime name : string) (size : Z) :
  has_newline name = true ->
  bool_decide
    (map_Forall (fun (_ : string) v => has_newline v = false)
       (headers
          (set_header "content-disposition"
             ("attachment; filename=" ++ name ++ "; size=" ++ str size)
             (set_header "content-length" (str size)
                (set_header "content-type" mime stream_response)))))
  = false.
Proof.
  intros Hname. apply bool_decide_eq_false_2. intros Hall.
  cbn [set_header headers] in Hall.
  specialize (Hall "content-disposition"
                ("attachment; filename=" ++ name ++ "; size=" ++ str size)).
  rewrite lookup_insert_eq in Hall. specialize (Hall eq_refl).
  cbn beta in Hall.
  rewrite !has_newline_app, Hname in Hall. cbn in Hall.
  rewrite orb_true_r in Hall. discriminate.
Qed.

Lemma download_content_length (mime header : string) (size : Z) :
  headers
    (set_header "content-disposition" header
       (set_header "content-length" (str size)
          (set_header "content-type" mime stream_response)))
  !! "content-length" = Some (str size).
Proof.
  cbn [set_header headers].
  rewrite lookup_insert_ne by discriminate.
  apply lookup_insert_eq.
Qed.

(** ** Streaming in chunks *)

Lemma chunk_size_pos : (0 < chunk_size)%nat.
Proof. unfold chunk_size. lia. Qed.

Lemma take_nil_inv {A} (n : nat) (l : list A) :
  (0 < n)%nat -> take n l = [] -> l = [].
Proof. destruct n, l; cbn; intros; try lia; congruence. Qed.

Lemma take_app_drop_min {A} (n : nat) (l : list A) :
  (take n l ++ drop (length (take n l)) l)%list = l.
Proof.
  rewrite length_take.
  destruct (Nat.le_gt_cases n (length l)) as [Hle | Hgt].
  - rewrite Nat.min_l by lia. apply take_drop.
  - rewrite Nat.min_r by lia. rewrite drop_all, app_nil_r.
    apply take_ge. lia.
Qed.

(** A chunk the declared length allows is sent whole. *)
Lemma write_whole (chunk : bytes) (response : Response) (cs : list bytes)
    (len : Z) :
  chunk <> [] ->
  body response = Stream cs ->
  allowance response = Some len ->
  Z.of_nat (length chunk) <= len ->
  write chunk response
  = {| status := status response; headers := headers response;
       body := Stream (cs ++ [chunk]);
       allowance := Some (len - Z.of_nat (length chunk)) |}.
Proof.
  intros Hne Hbody Hlen Hfit. unfold write. rewrite Hbody, Hlen.
  destruct (decide (Z.of_nat (length chunk) <= len)); [| lia]. cbn.
  destruct (decide (chunk = [])); [contradiction | reflexivity].
Qed.

(** A chunk that exceeds what is left is cut, and nothing is left. *)
Lemma write_cut (chunk : bytes) (response : Response) (cs : list bytes)
    (len : Z) :
  body response = Stream cs ->
  allowance response = Some len ->
  0 <= len < Z.of_nat (length chunk) ->
  exists sent : list bytes,
    write chunk response
    = {| status := status response; headers := headers response;
         body := Stream (cs ++ sent); allowance := Some 0 |}
    /\ concat sent = take (Z.to_nat len) chunk.
Proof.
  intros Hbody Hlen Hcut. unfold write. rewrite Hbody, Hlen.
  destruct (decide (Z.of_nat (length chunk) <= len)); [lia |]. cbn.
  unfold slice_to. destruct (decide (0 <= len)); [| lia].
  destruct (decide (take (Z.to_nat len) chunk = [])) as [Hnil | Hsome].
  - exists []. rewrite app_nil_r, Hnil. split; reflexivity.
  - exists [take (Z.to_nat len) chunk]. cbn. rewrite app_nil_r.
    split; reflexivity.
Qed.

(** The loop, entered with the chunk read at offset [p] and a writer that
    still accepts [len] bytes, sends the first [len] bytes of the rest of
    the file from [p] on and touches nothing else of the response; when
    the rest of the file fits, it is sent in the chunks that were read. *)
Lemma stream_loop_spec (data : bytes) :
  forall (k p : nat) (chunk : bytes) (response : Response) (cs : list bytes)
         (len : Z),
    (length data - p <= k)%nat ->
    (p <= length data)%nat ->
    chunk = take chunk_size (drop p data) ->
    body response = Stream cs ->
    allowance response = Some len ->
    0 <= len ->
    exists rest : list bytes,
      let out :=
        (stream_loop {| f_data := data; f_pos := p + length chunk |}
                     chunk response).1 in
      body out = Stream (cs ++ rest)%list
      /\ headers out = headers response
      /\ status out = status response
      /\ concat rest = take (Z.to_nat len) (drop p data)
      /\ (Z.of_nat (length data - p) <= len ->
          forall (i : nat) (c : bytes),
            rest !! i = Some c ->
            c = take chunk_size (drop (p + i * chunk_size) data) /\ c <> []).
Proof.
  induction k as [| k IH];
    intros p chunk response cs len Hk Hp Hchunk Hbody Hallow Hlen0.
  - assert (Hnil : drop p data = []) by (apply drop_ge; lia).
    rewrite Hnil, take_nil in Hchunk. subst chunk.
    exists []. simp stream_loop. cbn.
    rewrite app_nil_r, Hnil, take_nil. split_and!; auto.
    intros _ i c Hi. rewrite lookup_nil in Hi. discriminate.
  - destruct (decide (chunk = [])) as [Hempty | Hnonempty].
    + subst chunk. rewrite Hempty.
      apply take_nil_inv in Hempty; [| apply chunk_size_pos].
      exists []. simp stream_loop. cbn.
      rewrite app_nil_r, Hempty, take_nil. split_and!; auto.
      intros _ i c Hi. rewrite lookup_nil in Hi. discriminate.
    + assert (Hlen : (0 < length chunk)%nat).
      { destruct chunk; [congruence | cbn; lia]. }
      assert (Hlen' : (length chunk <= length data - p)%nat).
      { rewrite Hchunk, length_take, length_drop. lia. }
      set (p' := (p + length chunk)%nat).
      set (chunk' := take chunk_size (drop p' data)).
      assert (Hloop :
        stream_loop {| f_data := data; f_pos := p' |} chunk response
        = stream_loop {| f_data := data; f_pos := p' + length chunk' |}
                      chunk' (write chunk response)).
      { destruct chunk as [| b c0]; [cbn in Hlen; lia |].
        simp stream_loop. reflexivity. }
      assert (Hrest : drop p data = (chunk ++ drop p' data)%list).
      { subst p'. rewrite <- drop_drop. rewrite Hchunk.
        symmetry. apply take_app_drop_min. }
      destruct (decide (Z.of_nat (length chunk) <= len)) as [Hfit | Hcut].
      * pose proof (write_whole chunk response cs len
                      Hnonempty Hbody Hallow Hfit) as Hw.
        destruct (IH p' chunk' (write chunk response) (cs ++ [chunk])%list
                     (len - Z.of_nat (length chunk)))
          as (rest & Hb & Hh & Hs & Hcat & Hidx).
        { subst p'. lia. }
        { subst p'. lia. }
        { reflexivity. }
        { rewrite Hw. reflexivity. }
        { rewrite Hw. reflexivity. }
        { lia. }
        exists (chunk :: rest). cbn zeta in *. rewrite Hloop.
        rewrite Hb, Hh, Hs, Hw. cbn [status headers]. split_and!; auto.
        -- rewrite <- app_assoc. reflexivity.
        -- cbn. rewrite Hcat, Hrest.
           rewrite take_app_ge by lia. f_equal. f_equal. lia.
        -- intros Hroom i c Hi. destruct i as [| i]; cbn in Hi.
           ++ injection Hi as <-. rewrite Nat.add_0_r. split; [exact Hchunk |].
              intros ->. cbn in Hlen. lia.
           ++ destruct (Hidx ltac:(subst p'; lia) i c Hi) as [Hc Hne].
              split; [| exact Hne].
              assert (Hfull : length chunk = chunk_size).
              { destruct (decide (length chunk = chunk_size)) as [|Hshort];
                  [assumption | exfalso].
                apply Hne. rewrite Hc.
                rewrite drop_ge; [apply take_nil |].
                subst p'. rewrite Hchunk, length_take, length_drop in *.
                lia. }
              rewrite Hc. subst p'. rewrite Hfull. f_equal. f_equal. cbn. lia.
      * destruct (write_cut chunk response cs len Hbody Hallow ltac:(lia))
          as (sent & Hw & Hsent).
        destruct (IH p' chunk' (write chunk response) (cs ++ sent)%list 0)
          as (rest & Hb & Hh & Hs & Hcat & _).
        { subst p'. lia. }
        { subst p'. lia. }
        { reflexivity. }
        { rewrite Hw. reflexivity. }
        { rewrite Hw. reflexivity. }
        { lia. }
        exists (sent ++ rest)%list. cbn zeta in *. rewrite Hloop.
        rewrite Hb, Hh, Hs, Hw. cbn [status headers]. split_and!; auto.
        -- rewrite <- app_assoc. reflexivity.
        -- rewrite concat_app, Hcat, Hsent. cbn. rewrite app_nil_r.
           rewrite Hrest. rewrite take_app_le by lia. reflexivity.
        -- intros Hroom. lia.
Qed.

(** ** Name collision *)

Lemma lookup_service_Some (w : World) (name : string) (info : ServiceInfo) :
  lookup_service w name = Some info -> services w !! name = Some info.
Proof.
  unfold lookup_service. destruct (timely w name); [auto | discriminate].
Qed.

Lemma lookup_service_free (w : World) (name : string) :
  services w !! name = None -> lookup_service w name = None.
Proof.
  unfold lookup_service. intros ->. destruct (timely w name); reflexivity.
Qed.

(** C3.  When a live record already answers for the code, [send_server]
    raises the name-already-exists [ValueError] right after the discovery
    query: the world is left as it was (so the existing record is not
    overwritten and no port is bound), and the trace holds the query
    alone, with no registration and no bind. *)
Theorem send_server_name_taken `{Libs} :
  forall (w : World) code text file compress port info,
    lookup_service w (code ++ service) = Some info ->
    let r := send_server code text file compress port w in
    r = Run (Raised (ValueError (msg_exists code))) w
            [EvQuery service (code ++ service)]
    /\ services (final r) !! (code ++ service) = Some info
    /\ sites (final r) = sites w
    /\ performs_no is_register r
    /\ performs_no is_listen r.
Proof.
  intros w code text file compress port info Hlive r.
  assert (Hr : r = Run (Raised (ValueError (msg_exists code))) w
                       [EvQuery service (code ++ service)]).
  { subst r. unfold send_server. cbn. rewrite Hlive. reflexivity. }
  rewrite Hr. unfold performs_no. cbn.
  split_and!; auto.
  apply lookup_service_Some. exact Hlive.
Qed.

Lemma send_server_name_taken_witness :
  lookup_service demo_world ("desk" ++ service) = Some desk
  /\ let r := send_server (H := demo_libs) "desk" (Some "hello") None false 80
                 demo_world in
     r = Run (Raised (ValueError (msg_exists "desk"))) demo_world
             [EvQuery service ("desk" ++ service)]
     /\ services (final r) !! ("desk" ++ service) = Some desk
     /\ sites (final r) = sites demo_world
     /\ performs_no is_register r
     /\ performs_no is_listen r.
Proof.
  split; [ vm_compute; reflexivity | ].
  apply (send_server_name_taken (H := demo_libs) demo_world "desk"
           (Some "hello") None false 80 desk).
  vm_compute; reflexivity.
Defined.

(** ** The upload client: absent service and empty input *)

Lemma send_absent_run `{Libs} :
  forall (w : World) code file compress,
    lookup_service w (code ++ service) = None ->
    send code file compress w
    = Run (Returned 1) w
          [EvQuery service (code ++ service); EvPrint (msg_absent code)].
Proof.
  intros w code file compress Habsent.
  unfold send. cbn. rewrite Habsent. reflexivity.
Qed.

(** C5.  When the discovery lookup of the code returns no record, [send]
    reports the absence and returns 1: nothing is raised, the world is
    unchanged and no HTTP request is made, whatever the [file] argument. *)
Theorem send_service_absent `{Libs} :
  forall (w : World) code file compress,
    lookup_service w (code ++ service) = None ->
    let r := send code file compress w in
    r = Run (Returned 1) w
            [EvQuery service (code ++ service); EvPrint (msg_absent code)]
    /\ performs_no is_http r.
Proof.
  intros w code file compress Habsent r.
  assert (Hr : r = Run (Returned 1) w
                       [EvQuery service (code ++ service);
                        EvPrint (msg_absent code)]).
  { subst r. apply send_absent_run. exact Habsent. }
  rewrite Hr. unfold performs_no. cbn. split; auto.
Qed.

Lemma send_service_absent_witness :
  lookup_service demo_world ("ghost" ++ service) = None
  /\ let r := send (H := demo_libs) "ghost" (Some (FStr "a.txt")) false
                 demo_world in
     r = Run (Returned 1) demo_world
             [EvQuery service ("ghost" ++ service);
              EvPrint (msg_absent "ghost")]
     /\ performs_no is_http r.
Proof.
  split; [ vm_compute; reflexivity | ].
  apply (send_service_absent (H := demo_libs) demo_world "ghost"
           (Some (FStr "a.txt")) false).
  vm_compute; reflexivity.
Defined.

(** C4, as stated, fails: with an empty path list [send] still asks the
    discovery layer first, and when the code does not resolve the call
    returns 1 instead of raising the invalid-input error. *)
Lemma send_empty_list_queries_discovery :
  let r := send (H := demo_libs) "ghost" (Some (FList [])) false demo_world in
  outcome r = Returned 1
  /\ events r = [EvQuery service ("ghost" ++ service);
                 EvPrint (msg_absent "ghost")]
  /\ ~ ((exists msg, outcome r = Raised (ValueError msg))
        /\ performs_no is_query r).
Proof.
  intros r. split_and!; [ vm_compute; reflexivity | vm_compute; reflexivity | ].
  intros [[msg Hmsg] _]. vm_compute in Hmsg. discriminate Hmsg.
Qed.

(** C4, amended.  With an empty path list or the empty string as [file],
    [send] performs the discovery lookup first.  When the code resolves
    it raises the invalid-input [ValueError] with nothing but the lookup
    done; when it does not resolve it returns 1 as for any absent service.
    In both cases no HTTP request is made. *)
Theorem send_empty_file `{Libs} :
  forall (w : World) code compress (file : file_arg),
    paths_of file = [] ->
    let r := send code (Some file) compress w in
    r = match lookup_service w (code ++ service) with
        | Some _ =>
            Run (Raised (ValueError msg_empty)) w
                [EvQuery service (code ++ service)]
        | None =>
            Run (Returned 1) w
                [EvQuery service (code ++ service); EvPrint (msg_absent code)]
        end
    /\ performs_no is_http r.
Proof.
  intros w code compress file Hempty r.
  assert (Hr : r = match lookup_service w (code ++ service) with
                   | Some _ =>
                       Run (Raised (ValueError msg_empty)) w
                           [EvQuery service (code ++ service)]
                   | None =>
                       Run (Returned 1) w
                           [EvQuery service (code ++ service);
                            EvPrint (msg_absent code)]
                   end).
  { subst r. unfold send. cbn.
    destruct (lookup_service w (code ++ service)) as [info |];
      [| reflexivity].
    destruct file as [s | l]; cbn in Hempty.
    - destruct (decide (s = EmptyString)); [reflexivity | discriminate].
    - subst l. reflexivity. }
  split; [exact Hr |]. rewrite Hr. unfold performs_no.
  destruct (lookup_service w (code ++ service)); cbn; auto.
Qed.

Lemma send_empty_file_witness :
  paths_of (FStr EmptyString) = []
  /\ let r := send (H := demo_libs) "desk" (Some (FStr EmptyString)) false
                 demo_world in
     r = match lookup_service demo_world ("desk" ++ service) with
         | Some _ =>
             Run (Raised (ValueError msg_empty)) demo_world
                 [EvQuery service ("desk" ++ service)]
         | None =>
             Run (Returned 1) demo_world
                 [EvQuery service ("desk" ++ service);
                  EvPrint (msg_absent "desk")]
         end
     /\ performs_no is_http r.
Proof.
  split; [ reflexivity | ].
  apply (send_empty_file (H := demo_libs) demo_world "desk" false
           (FStr EmptyString)).
  reflexivity.
Defined.

(** ** The process wrapper *)

(** C10.  [send_server_proc] only builds the process object: the call
    returns it with the world untouched and an empty trace (no discovery
    query, no registration, no bind), the object is not started, and what
    it would run once started is [send_server] on the very arguments of
    the call. *)
Theorem send_server_proc_only_constructs `{Libs} :
  forall (w : World) code text file compress port,
    exists p : Process,
      send_server_proc code text file compress port w = Run (Returned p) w []
      /\ started p = false
      /\ target p = send_server_kw
      /\ kwargs p = {| kw_code := code; kw_file := file; kw_text := text;
                       kw_compress := compress; kw_port := port |}
      /\ process_run p = send_server code text file compress port
      /\ performs_no is_query (send_server_proc code text file compress port w)
      /\ performs_no is_register
           (send_server_proc code text file compress port w)
      /\ performs_no is_listen
           (send_server_proc code text file compress port w).
Proof.
  intros w code text file compress port.
  eexists. split; [reflexivity |].
  unfold performs_no. cbn. split_and!; auto.
Qed.

(** ** The upload client: role check *)

(** C2.  Whenever a call of [send] asks a service for its role and the
    answer is not "Upload Receiver", the call returns 1, the role mismatch
    is the last thing it reports, and it performs no POST.  The service
    asked is the one the code resolved to, on /airshare of its first
    address and its port. *)
Theorem send_role_mismatch `{Libs} :
  forall (w : World) code file compress url body,
    let r := send code file compress w in
    In (EvGet url) (events r) ->
    http_get (net w) url = Some body ->
    body <> "Upload Receiver" ->
    outcome r = Returned 1
    /\ last (events r) = Some (EvPrint (msg_mismatch code))
    /\ performs_no is_post r
    /\ exists info packed others,
         lookup_service w (code ++ service) = Some info
         /\ si_addresses info = packed :: others
         /\ url = base_url info packed ++ "/airshare".
Proof.
  intros w code file compress url body r. subst r.
  unfold send, base_url, performs_no, msg_mismatch.
  repeat (cbn in *; try not_in_trace; split_goal).
  all: cbn in *.
  all: intros Hin;
    repeat (destruct Hin as [Hin | Hin]; try discriminate Hin);
    try contradiction.
  all: injection Hin as <-.
  all: intros Hget Hbody; try congruence.
  all: try (exfalso;
            match goal with
            | Hn : ~ _ <> "Upload Receiver" |- _ => apply Hn; congruence
            end).
  all: split_and!; try reflexivity;
    try (repeat (constructor; cbn); congruence).
  all: do 3 eexists; split_and!; [reflexivity | eassumption | reflexivity].
Qed.

Lemma send_role_mismatch_witness :
  let r := send (H := demo_libs) "shelf" (Some (FStr "a.txt")) false
             demo_world in
  In (EvGet "http://192.168.1.9:80/airshare") (events r)
  /\ http_get (net demo_world) "http://192.168.1.9:80/airshare"
     = Some "File Sender"
  /\ "File Sender" <> "Upload Receiver"
  /\ outcome r = Returned 1
  /\ last (events r) = Some (EvPrint (msg_mismatch "shelf"))
  /\ performs_no is_post r
  /\ exists info packed others,
       lookup_service demo_world ("shelf" ++ service) = Some info
       /\ si_addresses info = packed :: others
       /\ "http://192.168.1.9:80/airshare"
          = base_url info packed ++ "/airshare".
Proof.
  intros r.
  assert (Hin : In (EvGet "http://192.168.1.9:80/airshare") (events r)).
  { vm_compute. right. left. reflexivity. }
  assert (Hget : http_get (net demo_world) "http://192.168.1.9:80/airshare"
                 = Some "File Sender")
    by (vm_compute; reflexivity).
  assert (Hbody : "File Sender" <> "Upload Receiver") by discriminate.
  split; [exact Hin |]. split; [exact Hget |]. split; [exact Hbody |].
  exact (send_role_mismatch (H := demo_libs) demo_world "shelf"
           (Some (FStr "a.txt")) false "http://192.168.1.9:80/airshare"
           "File Sender" Hin Hget Hbody).
Defined.

(** ** Registration comes before the bind *)

Lemma phases_ok_listening (name : string) (evs : list event) :
  phases_ok name Listening evs = true ->
  Forall (fun e => is_register e = false) evs.
Proof.
  induction evs as [| e evs IH]; intros Hok; [constructor |].
  cbn in Hok.
  destruct e as [t n | info [|] | paths | h p b | line | url
                 | url fld nm data];
    cbn in Hok; try discriminate Hok; constructor; auto.
Qed.

Lemma phases_ok_sound (name : string) :
  forall (evs : list event) (ph : phase),
    phases_ok name ph evs = true ->
    forall pre host port bound post,
      evs = (pre ++ EvListen host port bound :: post)%list ->
      (ph = Unregistered \/ ph = Registered)
      /\ (ph = Unregistered ->
          exists info, In (EvRegister info true) pre /\ si_name info = name)
      /\ (forall info, ~ In (EvRegister info false) pre)
      /\ Forall (fun e => is_register e = false) post.
Proof.
  induction evs as [| e evs IH]; intros ph Hok pre host port bound post Heq.
  - destruct pre; discriminate Heq.
  - destruct pre as [| e' pre].
    + cbn in Heq. injection Heq as -> ->. cbn in Hok.
      destruct ph; try discriminate Hok.
      split_and!; auto.
      * intros Hph. discriminate Hph.
      * apply (phases_ok_listening name). exact Hok.
    + cbn in Heq. injection Heq as <- ->. cbn in Hok.
      destruct (phase_step name ph e) as [ph' |] eqn:Hstep;
        [| discriminate Hok].
      destruct (IH ph' Hok pre host port bound post eq_refl)
        as (Hph' & Hreg & Hrej & Hpost).
      destruct e as [t n | info [|] | paths | h p b | line | url
                     | url fld nm data];
        destruct ph; cbn in Hstep; try discriminate Hstep;
        try (injection Hstep as <-);
        try (destruct Hph' as [Hph' | Hph']; discriminate Hph');
        try (split_and!;
             [ auto
             | intros Hph;
               first [ discriminate Hph
                     | destruct (Hreg eq_refl) as (i & Hin & Hname);
                       exists i; split; [right; exact Hin | exact Hname] ]
             | intros i [Hhead | Hin];
               [discriminate Hhead | exact (Hrej i Hin)]
             | exact Hpost ]; fail).
      * destruct (decide (si_name info = name)) as [Hname |];
          [| discriminate Hstep].
        injection Hstep as <-.
        split_and!; auto.
        -- intros _. exists info. split; [left; reflexivity | exact Hname].
        -- intros i [Hhead | Hin]; [discriminate Hhead | exact (Hrej i Hin)].
Qed.

Lemma send_server_phases `{Libs} :
  forall (w : World) code text file compress port,
    phases_ok (code ++ service) Unregistered
      (events (send_server code text file compress port w)) = true.
Proof.
  intros w code text file compress port. unfold send_server. run_all.
Qed.

(** C8.  In every run of [send_server] the registration is over before
    the port is bound: whatever precedes a bind in the trace holds an
    accepted registration under the server's own name and no rejected
    one, and no registration follows the bind.  A run whose registration
    is rejected never binds.  A run that reaches the serving loop has its
    own record announced under its name and its port bound. *)
Theorem registration_before_bind `{Libs} :
  forall (w : World) code text file compress port,
    let r := send_server code text file compress port w in
    registration_precedes_listening (code ++ service) (events r)
    /\ (forall info,
         In (EvRegister info false) (events r) -> performs_no is_listen r)
    /\ (outcome r = Forever ->
        services (final r) !! (code ++ service)
        = Some (own_record w code port)
        /\ is_Some (sites (final r) !! port)
        /\ In (EvRegister (own_record w code port) true) (events r)).
Proof.
  intros w code text file compress port r.
  assert (Horder :
    registration_precedes_listening (code ++ service) (events r)).
  { intros pre host p bound post Heq.
    pose proof (send_server_phases w code text file compress port) as Hok.
    fold r in Hok.
    destruct (phases_ok_sound _ _ _ Hok pre host p bound post Heq)
      as (_ & Hreg & Hrej & Hpost).
    split_and!; auto. }
  split_and!.
  - exact Horder.
  - intros info Hin. unfold performs_no. apply Forall_forall.
    intros e He.
    destruct e as [t n | i a | paths | h p b | line | url | url fld nm data];
      try reflexivity.
    exfalso. apply list_elem_of_split in He.
    destruct He as (pre & post & Heq).
    destruct (Horder pre h p b post Heq) as (_ & Hrej & Hpost).
    rewrite Heq in Hin. apply in_app_or in Hin.
    destruct Hin as [Hin | [Hin | Hin]].
    + exact (Hrej info Hin).
    + discriminate Hin.
    + rewrite Forall_forall in Hpost. apply list_elem_of_In in Hin.
      specialize (Hpost _ Hin). discriminate Hpost.
  - subst r. unfold send_server, own_record.
    repeat (cbn in *; finish;
            try (intros _; split_and!;
                 [ apply lookup_insert_eq
                 | rewrite lookup_insert_eq; eauto
                 | tauto ]; fail);
            split_goal).
Qed.

(** ** Text wins over file *)

Lemma truthy_nonempty (t : string) :
  t <> EmptyString -> truthy_str (Some t) = true.
Proof. intros Ht. cbn. apply bool_decide_eq_true_2. exact Ht. Qed.

Lemma serve_text_root `{Libs} (t : string) peer (w : World) :
  answers_text (serve (text_app t) (GET "/" peer) w) w
    [EvPrint (msg_transferred (GET "/" peer))] t.
Proof. eexists. split_and!; reflexivity. Qed.

Lemma serve_text_airshare `{Libs} (t : string) peer (w : World) :
  answers_text (serve (text_app t) (GET "/airshare" peer) w) w []
    "Text Sender".
Proof. eexists. split_and!; reflexivity. Qed.

Lemma serve_text_download `{Libs} (t : string) peer (w : World) :
  exists response,
    serve (text_app t) (GET "/download" peer) w = Run (Returned response) w []
    /\ status response = 404.
Proof. eexists. split_and!; reflexivity. Qed.

(** What a run of [send_server] with a non-empty text does, whatever the
    [file] argument. *)
Lemma send_server_text_run `{Libs} :
  forall (w : World) code t file compress port,
    t <> EmptyString ->
    send_server code (Some t) file compress port w
    = match lookup_service w (code ++ service) with
      | Some _ =>
          Run (Raised (ValueError (msg_exists code))) w
              [EvQuery service (code ++ service)]
      | None =>
          let info := own_record w code port in
          let w1 := with_services (<[code ++ service := info]> (services w)) w in
          match services w !! (code ++ service) with
          | Some _ =>
              Run (Raised NonUniqueNameException) w
                  [EvQuery service (code ++ service); EvRegister info false]
          | None =>
          if decide (0 <= port <= 65535) then
          match (if decide (port = 0) then None else sites w !! port) with
          | Some _ =>
              Run (Raised OSError) w1
                  [EvQuery service (code ++ service); EvRegister info true;
                   EvListen "0.0.0.0" (str port) false]
          | None =>
              let w2 := with_sites (<[port := text_app t]> (sites w)) w1 in
              let packed := get_local_ip_address (net w) in
              if decide (length packed = 4%nat) then
                Run Forever w2
                    [EvQuery service (code ++ service); EvRegister info true;
                     EvListen "0.0.0.0" (str port) true;
                     EvPrint (msg_available t EmptyString (dotted_quad packed)
                                code port);
                     EvPrint (qr_terminal ("http://" ++ dotted_quad packed
                                           ++ url_port port))]
              else
                Run (Raised OSError) w2
                    [EvQuery service (code ++ service); EvRegister info true;
                     EvListen "0.0.0.0" (str port) true]
          end
          else
            Run (Raised OverflowError) w1
                [EvQuery service (code ++ service); EvRegister info true;
                 EvListen "0.0.0.0" (str port) false]
          end
      end.
Proof.
  intros w code t file compress port Ht.
  unfold send_server, own_record, msg_available, url_port, text_app.
  rewrite (truthy_nonempty t Ht).
  destruct file as [[s | [| p l]] |]; run_all.
Qed.

(** With the empty string as text the server never reaches its loop: the
    content is missing, or it is the path list and cannot be printed. *)
Lemma send_server_empty_text `{Libs} :
  forall (w : World) code file compress port,
    outcome (send_server code (Some EmptyString) file compress port w)
    <> Forever.
Proof.
  intros w code file compress port. unfold send_server.
  destruct file as [[s | [| p l]] |]; run_all.
Qed.

(** What a run of [send_server] without text does. *)
Lemma send_server_file_run `{Libs} :
  forall (w : World) code file compress port,
    send_server code None file compress port w
    = let query := EvQuery service (code ++ service) in
      match lookup_service w (code ++ service) with
      | Some _ => Run (Raised (ValueError (msg_exists code))) w [query]
      | None =>
      match from_option paths_of [] file with
      | [] => Run (Raised (ValueError msg_missing)) w [query]
      | first :: others =>
      let paths := first :: others in
      let z := zips (fs w) compress paths in
      let packaged := if z then get_zip_file (fs w) paths
                      else (inr (first, EmptyString), fs w) in
      let pre := query :: (if z then [EvZip paths] else []) in
      let fs1 := packaged.2 in
      let w0 := if z then with_fs fs1 w else w in
      match packaged.1 with
      | inl e => Run (Raised e) w0 pre
      | inr (artifact, zname) =>
      let info := own_record w code port in
      let w1 := with_services (<[code ++ service := info]> (services w))
                  (with_fs fs1 w) in
      let file_path := realpath fs1 artifact in
      let file_name := if decide (zname ≠ EmptyString) then zname
                       else basename file_path in
      match services w !! (code ++ service) with
      | Some _ =>
          Run (Raised NonUniqueNameException) w0
              (pre ++ [EvRegister info false])
      | None =>
      match nodes fs1 !! realpath fs1 file_path with
      | None =>
          Run (Raised FileNotFoundError) w1 (pre ++ [EvRegister info true])
      | Some node =>
      let app := file_app file_path file_name (node_size node) in
      if decide (0 <= port <= 65535) then
      match (if decide (port = 0) then None else sites w !! port) with
      | Some _ =>
          Run (Raised OSError) w1
              (pre ++ [EvRegister info true;
                       EvListen "0.0.0.0" (str port) false])
      | None =>
      let w2 := with_sites (<[port := app]> (sites w)) w1 in
      let packed := get_local_ip_address (net w) in
      if decide (length packed = 4%nat) then
        Run Forever w2
            (pre ++ [EvRegister info true;
                     EvListen "0.0.0.0" (str port) true;
                     EvPrint (msg_available file_name
                                (" (" ++ naturalsize (node_size node) ++ ") ")
                                (dotted_quad packed) code port);
                     EvPrint (qr_terminal ("http://" ++ dotted_quad packed
                                           ++ url_port port))])
      else
        Run (Raised OSError) w2
            (pre ++ [EvRegister info true;
                     EvListen "0.0.0.0" (str port) true])
      end
      else
        Run (Raised OverflowError) w1
            (pre ++ [EvRegister info true;
                     EvListen "0.0.0.0" (str port) false])
      end end end end end.
Proof.
  intros w code file compress port.
  unfold send_server, zips, basename, file_app, own_record, msg_available,
    url_port, msg_missing.
  destruct file as [[s | [| p l]] |]; run_all.
Qed.

(** C9.  With a non-empty text, [send_server] behaves exactly as if no
    file had been given.  Whenever it binds its port, and so whenever it
    reaches the serving loop, the application bound is the text
    application, with the two routes '/' and '/airshare' and no other.
    Of that application, GET / answers 200 with the text as its body and
    prints the transfer line, GET /airshare answers 200 with the body
    "Text Sender", and GET /download answers 404. *)
Theorem text_takes_precedence `{Libs} :
  forall (w : World) code t file compress port,
    t <> EmptyString ->
    let r := send_server code (Some t) file compress port w in
    r = send_server code (Some t) None compress port w
    /\ (outcome r = Forever -> sites (final r) !! port = Some (text_app t))
    /\ (forall host p,
          In (EvListen host p true) (events r) ->
          sites (final r) !! port = Some (text_app t))
    /\ router (text_app t)
       = [("/", H_text_sender); ("/airshare", H_is_airshare_text_sender)]
    /\ forall peer (w' : World),
         (exists response,
            serve (text_app t) (GET "/" peer) w'
            = Run (Returned response) w'
                  [EvPrint (msg_transferred (GET "/" peer))]
            /\ status response = 200
            /\ body response = Text t)
         /\ (exists response,
               serve (text_app t) (GET "/airshare" peer) w'
               = Run (Returned response) w' []
               /\ status response = 200
               /\ body response = Text "Text Sender")
         /\ (exists response,
               serve (text_app t) (GET "/download" peer) w'
               = Run (Returned response) w' []
               /\ status response = 404).
Proof.
  intros w code t file compress port Ht r. subst r.
  rewrite (send_server_text_run w code t file compress port Ht).
  rewrite (send_server_text_run w code t None compress port Ht).
  assert (Hbound :
    forall host p,
      In (EvListen host p true)
         (events (send_server code (Some t) None compress port w)) ->
      sites (final (send_server code (Some t) None compress port w)) !! port
      = Some (text_app t)).
  { intros host p.
    rewrite (send_server_text_run w code t None compress port Ht).
    destruct (lookup_service w (code ++ service)); [cbn; not_in_trace |].
    cbn zeta.
    destruct (services w !! (code ++ service)); [cbn; not_in_trace |].
    destruct (decide (0 <= port <= 65535)); [| cbn; not_in_trace].
    destruct (if decide (port = 0) then None else sites w !! port);
      [cbn; not_in_trace |].
    destruct (decide (length (get_local_ip_address (net w)) = 4%nat));
      intros _; cbn; apply lookup_insert_eq. }
  rewrite (send_server_text_run w code t None compress port Ht) in Hbound.
  split_and!.
  - reflexivity.
  - destruct (lookup_service w (code ++ service)); [discriminate |].
    cbn zeta.
    destruct (services w !! (code ++ service)); [discriminate |].
    destruct (decide (0 <= port <= 65535)); [| discriminate].
    destruct (if decide (port = 0) then None else sites w !! port);
      [discriminate |].
    destruct (decide (length (get_local_ip_address (net w)) = 4%nat));
      [| discriminate].
    intros _. cbn. apply lookup_insert_eq.
  - exact Hbound.
  - reflexivity.
  - intros peer w'. split_and!.
    + apply serve_text_root.
    + apply serve_text_airshare.
    + apply serve_text_download.
Qed.

Lemma text_takes_precedence_witness :
  "hi" <> EmptyString
  /\ let r := send_server (H := demo_libs) "me" (Some "hi")
                 (Some (FStr "a.txt")) false 8080 demo_world in
     r = send_server (H := demo_libs) "me" (Some "hi") None false 8080
           demo_world
     /\ outcome r = Forever
     /\ sites (final r) !! 8080 = Some (text_app "hi")
     /\ exists response,
          serve (H := demo_libs) (text_app "hi") (GET "/" None) (final r)
          = Run (Returned response) (final r)
                [EvPrint "Content requested, transferred!"]
          /\ status response = 200
          /\ body response = Text "hi".
Proof.
  assert (Hne : "hi" <> EmptyString) by discriminate.
  split; [exact Hne |]. intros r.
  destruct (text_takes_precedence (H := demo_libs) demo_world "me" "hi"
              (Some (FStr "a.txt")) false 8080 Hne)
    as (Hsame & Hsite & _ & _ & Hserve).
  assert (Hout : outcome r = Forever) by (vm_compute; reflexivity).
  split; [exact Hsame |]. split; [exact Hout |].
  split; [exact (Hsite Hout) |].
  exact (proj1 (Hserve None (final r))).
Defined.

(** ** Role identification *)

Lemma serve_file_airshare `{Libs} (path name : string) (size : Z) peer
    (w : World) :
  answers_text (serve (file_app path name size) (GET "/airshare" peer) w) w []
    "File Sender".
Proof. eexists. split_and!; reflexivity. Qed.

(** C7.  Once [send_server] serves, a GET of /airshare on the
    application bound to its port is answered with status 200 and a body
    that is exactly "Text Sender" when the server was started with a text
    (its '/' is the text handler and it has no '/download'), and exactly
    "File Sender" when it was started without (its '/' is the download
    page and '/download' streams the file).  The request prints nothing
    and leaves the world as it was. *)
Theorem airshare_identifies_role `{Libs} :
  forall (w : World) code text file compress port,
    let r := send_server code text file compress port w in
    outcome r = Forever ->
    exists app,
      sites (final r) !! port = Some app
      /\ (forall peer (w' : World),
            exists response,
              serve app (GET "/airshare" peer) w'
              = Run (Returned response) w' []
              /\ status response = 200
              /\ body response = Text (match text with
                                       | Some _ => "Text Sender"
                                       | None => "File Sender"
                                       end))
      /\ match text with
         | Some _ =>
             resolve "/" (router app) = Some H_text_sender
             /\ resolve "/airshare" (router app)
                = Some H_is_airshare_text_sender
             /\ resolve "/download" (router app) = None
         | None =>
             resolve "/" (router app) = Some H_download_page
             /\ resolve "/airshare" (router app)
                = Some H_is_airshare_file_sender
             /\ resolve "/download" (router app) = Some H_file_stream_sender
         end.
Proof.
  intros w code text file compress port r Hout.
  destruct text as [t |].
  - destruct (decide (t = EmptyString)) as [-> | Ht].
    { exfalso. exact (send_server_empty_text w code file compress port Hout). }
    exists (text_app t). split_and!; try reflexivity;
      [| intros peer w'; apply serve_text_airshare].
    subst r. revert Hout.
    rewrite (send_server_text_run w code t file compress port Ht).
    destruct (lookup_service w (code ++ service)); [discriminate |].
    cbn zeta.
    destruct (services w !! (code ++ service)); [discriminate |].
    destruct (decide (0 <= port <= 65535)); [| discriminate].
    destruct (if decide (port = 0) then None else sites w !! port);
      [discriminate |].
    destruct (decide (length (get_local_ip_address (net w)) = 4%nat));
      [| discriminate].
    intros _. cbn. apply lookup_insert_eq.
  - subst r. revert Hout.
    rewrite (send_server_file_run w code file compress port).
    destruct (lookup_service w (code ++ service)); [discriminate |].
    destruct (from_option paths_of [] file) as [| first others];
      [discriminate |].
    cbn zeta.
    destruct (if zips (fs w) compress (first :: others)
              then get_zip_file (fs w) (first :: others)
              else (inr (first, EmptyString), fs w))
      as [[e | [artifact zname]] fs1]; [discriminate |].
    cbn [fst snd].
    destruct (services w !! (code ++ service)); [discriminate |].
    destruct (nodes fs1 !! realpath fs1 (realpath fs1 artifact));
      [| discriminate].
    destruct (decide (0 <= port <= 65535)); [| discriminate].
    destruct (if decide (port = 0) then None else sites w !! port);
      [discriminate |].
    destruct (decide (length (get_local_ip_address (net w)) = 4%nat));
      [| discriminate].
    intros _. eexists. split_and!;
      [ cbn; apply lookup_insert_eq
      | intros peer w'; apply serve_file_airshare
      | reflexivity .. ].
Qed.

Lemma airshare_identifies_role_witness :
  let r := send_server (H := demo_libs) "me" None (Some (FStr "a.txt")) false
             8080 demo_world in
  outcome r = Forever
  /\ exists app,
       sites (final r) !! 8080 = Some app
       /\ (forall peer (w' : World),
             exists response,
               serve (H := demo_libs) app (GET "/airshare" peer) w'
               = Run (Returned response) w' []
               /\ status response = 200
               /\ body response = Text "File Sender")
       /\ resolve "/" (router app) = Some H_download_page
       /\ resolve "/airshare" (router app) = Some H_is_airshare_file_sender
       /\ resolve "/download" (router app) = Some H_file_stream_sender.
Proof.
  intros r.
  assert (Hout : outcome r = Forever) by (vm_compute; reflexivity).
  split; [exact Hout |].
  exact (airshare_identifies_role (H := demo_libs) demo_world "me" None
           (Some (FStr "a.txt")) false 8080 Hout).
Defined.

(** ** Download *)

Lemma serve_file_download `{Libs} (path name : string) (size : Z) peer :
  serve (file_app path name size) (GET "/download" peer)
  = _file_stream_sender (GET "/download" peer) (file_app path name size).
Proof. reflexivity. Qed.

(** [prepare] on the response of the download handler. *)
Lemma prepare_download (request : Request) (mime name : string) (size : Z)
    (w : World) :
  prepare request
    (set_header "content-disposition"
       ("attachment; filename=" ++ name ++ "; size=" ++ str size)
       (set_header "content-length" (str size)
          (set_header "content-type" mime stream_response))) w
  = if has_newline mime || has_newline name
    then Run (Raised (ValueError msg_header_injection)) w []
    else Run (Returned {| status := 200;
                          headers := download_headers mime name size;
                          body := Stream [];
                          allowance := Some size |}) w [].
Proof.
  unfold prepare. rewrite download_content_length, int_of_str_str.
  cbn [bind ret app].
  destruct (has_newline mime) eqn:Hmime.
  - rewrite bool_decide_eq_false_2; [reflexivity |].
    intros Hall. cbn [set_header headers] in Hall.
    specialize (Hall "content-type" mime).
    rewrite lookup_insert_ne in Hall by discriminate.
    rewrite lookup_insert_ne in Hall by discriminate.
    rewrite lookup_insert_eq in Hall. specialize (Hall eq_refl).
    cbn beta in Hall. congruence.
  - destruct (has_newline name) eqn:Hname.
    + rewrite download_headers_unsafe by exact Hname. reflexivity.
    + rewrite download_headers_safe by assumption. reflexivity.
Qed.

(** The download handler on a regular file whose name and type pass
    [prepare]: it sends the first [size] bytes of the file, and the file
    chunk by chunk when [size] is at least its length. *)
Lemma file_stream_sender_run `{Libs} :
  forall (w : World) request path name size data,
    nodes (fs w) !! realpath (fs w) path = Some (RegularFile data) ->
    has_newline (magic_mime data) = false ->
    has_newline name = false ->
    0 <= size ->
    exists response chunks,
      _file_stream_sender request (file_app path name size) w
      = Run (Returned response) w [EvPrint (msg_transferred request)]
      /\ status response = 200
      /\ headers response = download_headers (magic_mime data) name size
      /\ body response = Stream chunks
      /\ concat chunks = take (Z.to_nat size) data
      /\ (Z.of_nat (length data) <= size ->
          forall (i : nat) (c : bytes),
            chunks !! i = Some c ->
            c = take chunk_size (drop (i * chunk_size) data) /\ c <> []).
Proof.
  intros w request path name size data Hnode Hmime Hname Hsize.
  set (prepared :=
         {| status := 200;
            headers := download_headers (magic_mime data) name size;
            body := Stream [];
            allowance := Some size |}).
  destruct (stream_loop_spec data (length data) 0
              (take chunk_size (drop 0 data)) prepared [] size)
    as (chunks & Hbody & Hheaders & Hstatus & Hcat & Hidx);
    [lia | lia | reflexivity | reflexivity | reflexivity | exact Hsize |].
  cbn zeta in Hbody, Hheaders, Hstatus.
  exists (stream_loop
            {| f_data := data;
               f_pos := 0 + length (take chunk_size (drop 0 data)) |}
            (take chunk_size (drop 0 data)) prepared).1, chunks.
  split_and!.
  - unfold _file_stream_sender, file_app, msg_transferred.
    cbn -[stream_loop f_read chunk_size set_header stream_response prepare].
    rewrite Hnode.
    cbn -[stream_loop f_read chunk_size set_header stream_response prepare].
    rewrite prepare_download, Hmime, Hname.
    cbn -[stream_loop f_read chunk_size set_header stream_response prepare].
    rewrite Hnode.
    cbn -[stream_loop f_read chunk_size set_header stream_response prepare].
    unfold f_read.
    cbn -[stream_loop chunk_size set_header stream_response prepare].
    fold prepared.
    destruct (stream_loop _ _ prepared) as [response f']. reflexivity.
  - rewrite Hstatus. reflexivity.
  - rewrite Hheaders. reflexivity.
  - rewrite Hbody. reflexivity.
  - rewrite Hcat. reflexivity.
  - intros Hroom i c Hi. apply (Hidx ltac:(lia) i c Hi).
Qed.

(** The download handler on a name with a line break: the request ends
    in [ValueError] at [prepare], after the printed line; the file is not
    opened and nothing is sent. *)
Lemma file_stream_sender_refused `{Libs} :
  forall (w : World) request path name size node,
    nodes (fs w) !! realpath (fs w) path = Some node ->
    has_newline name = true ->
    _file_stream_sender request (file_app path name size) w
    = Run (Raised (ValueError msg_header_injection)) w
          [EvPrint (msg_transferred request)].
Proof.
  intros w request path name size node Hnode Hname.
  unfold _file_stream_sender, file_app, msg_transferred.
  cbn -[stream_loop f_read chunk_size set_header stream_response prepare].
  rewrite Hnode.
  destruct node as [data | sz].
  - cbn -[stream_loop f_read chunk_size set_header stream_response prepare].
    rewrite prepare_download, Hname, orb_true_r. reflexivity.
  - cbn -[stream_loop f_read chunk_size set_header stream_response prepare].
    rewrite prepare_download, Hname, orb_true_r. reflexivity.
Qed.

(** What a serving run of [send_server] without text has bound. *)
Lemma send_server_file_bound `{Libs} :
  forall (w : World) code file compress port,
    let r := send_server code None file compress port w in
    outcome r = Forever ->
    exists path name node,
      sites (final r) !! port = Some (file_app path name (node_size node))
      /\ nodes (fs (final r)) !! realpath (fs (final r)) path = Some node.
Proof.
  intros w code file compress port r Hout. subst r. revert Hout.
  rewrite (send_server_file_run w code file compress port).
  destruct (lookup_service w (code ++ service)); [discriminate |].
  destruct (from_option paths_of [] file) as [| first others];
    [discriminate |].
  cbn zeta.
  destruct (if zips (fs w) compress (first :: others)
            then get_zip_file (fs w) (first :: others)
            else (inr (first, EmptyString), fs w))
    as [[e | [artifact zname]] fs1]; [discriminate |].
  cbn [fst snd].
  destruct (services w !! (code ++ service)); [discriminate |].
  destruct (nodes fs1 !! realpath fs1 (realpath fs1 artifact))
    as [node |] eqn:Hstat; [| discriminate].
  destruct (decide (0 <= port <= 65535)); [| discriminate].
  destruct (if decide (port = 0) then None else sites w !! port);
    [discriminate |].
  destruct (decide (length (get_local_ip_address (net w)) = 4%nat));
    [| discriminate].
  intros _. cbn [final sites with_sites fs with_services with_fs].
  eexists (realpath fs1 artifact), _, node.
  split; [apply lookup_insert_eq | exact Hstat].
Qed.

(** C1, as stated, fails in two ways.  A file that has grown since the
    server started is still announced with the size it had then, and only
    that many bytes of it are sent: here the file has three bytes at the
    time of the request, the header says 2 and the body is the first two
    bytes.  A file whose name holds a line feed is not served at all: the
    request ends in [ValueError] when the headers are sent. *)
Lemma download_not_always_byte_exact :
  (let r := send_server (H := demo_libs) "me" None (Some (FStr "a.txt"))
              false 8080 demo_world in
   let app := file_app "/home/u/a.txt" "a.txt" 2 in
   let later := with_fs (fs grown_world) (final r) in
   outcome r = Forever
   /\ sites (final r) !! 8080 = Some app
   /\ nodes (fs later) !! realpath (fs later) "/home/u/a.txt"
      = Some (RegularFile [x68; x69; x21])
   /\ exists response,
        outcome (serve (H := demo_libs) app (GET "/download" None) later)
        = Returned response
        /\ headers response !! "content-length" = Some "2"
        /\ headers response !! "content-length"
           <> Some (str (Z.of_nat (length [x68; x69; x21])))
        /\ body_bytes response = [x68; x69]
        /\ body_bytes response <> [x68; x69; x21])
  /\ (let r := send_server (H := demo_libs) "me" None (Some (FStr odd_name))
                 false 8080 odd_world in
      let app := file_app ("/home/u/" ++ odd_name) odd_name 2 in
      outcome r = Forever
      /\ sites (final r) !! 8080 = Some app
      /\ nodes (fs (final r)) !! realpath (fs (final r))
           ("/home/u/" ++ odd_name)
         = Some (RegularFile [x68; x69])
      /\ outcome (serve (H := demo_libs) app (GET "/download" None) (final r))
         = Raised (ValueError msg_header_injection)).
Proof.
  split.
  - intros r app later. split_and!; try (vm_compute; reflexivity).
    eexists. split_and!.
    + vm_compute. reflexivity.
    + vm_compute. reflexivity.
    + vm_compute. discriminate.
    + vm_compute. reflexivity.
    + vm_compute. discriminate.
  - intros r app. split_and!; vm_compute; reflexivity.
Qed.

(** C1, amended.  Let [send_server], started without text, reach its
    serving loop.  The application bound to its port has a file path and
    a file name.  For every regular file that is at that path when the
    server starts and is still there, with the same bytes, when the
    request is served, and whose name and sniffed type hold no control
    character, a GET of /download answers 200 with [content-length] the
    decimal size of the file in bytes, [content-disposition]
    "attachment; filename=<name>; size=<bytes>", and a body whose chunks,
    put end to end, are the bytes of the file: chunk number [i] is the
    (at most) 8192 bytes from offset [i * 8192], none is empty, so
    nothing is cut off, repeated or reordered. *)
Theorem download_is_byte_exact `{Libs} :
  forall (w : World) code file compress port,
    let r := send_server code None file compress port w in
    outcome r = Forever ->
    exists app path name,
      sites (final r) !! port = Some app
      /\ app_file_path app = Some path
      /\ app_file_name app = Some name
      /\ forall (w' : World) (data : bytes) peer,
           nodes (fs (final r)) !! realpath (fs (final r)) path
           = Some (RegularFile data) ->
           nodes (fs w') !! realpath (fs w') path = Some (RegularFile data) ->
           has_control name = false ->
           has_control (magic_mime data) = false ->
           exists response chunks,
             serve app (GET "/download" peer) w'
             = Run (Returned response) w'
                   [EvPrint (msg_transferred (GET "/download" peer))]
             /\ status response = 200
             /\ headers response !! "content-length"
                = Some (str (Z.of_nat (length data)))
             /\ headers response !! "content-disposition"
                = Some ("attachment; filename=" ++ name ++ "; size="
                        ++ str (Z.of_nat (length data)))
             /\ headers response !! "content-type" = Some (magic_mime data)
             /\ body response = Stream chunks
             /\ body_bytes response = data
             /\ Z.of_nat chunk_size = 8192
             /\ forall (i : nat) (c : bytes),
                  chunks !! i = Some c ->
                  c = take chunk_size (drop (i * chunk_size) data)
                  /\ c <> [].
Proof.
  intros w code file compress port r Hout.
  destruct (send_server_file_bound w code file compress port Hout)
    as (path & name & node & Hsite & Hstat).
  fold r in Hsite, Hstat.
  exists (file_app path name (node_size node)), path, name.
  split_and!; [exact Hsite | reflexivity | reflexivity |].
  intros w' data peer Hstart Hnow Hname Hmime.
  assert (Hsame : node = RegularFile data) by congruence.
  subst node.
  destruct (file_stream_sender_run w' (GET "/download" peer) path name
              (node_size (RegularFile data)) data Hnow
              (has_control_newline _ Hmime) (has_control_newline _ Hname))
    as (response & chunks & Hrun & Hstatus & Hheaders & Hbody & Hcat & Hidx).
  { cbn. lia. }
  exists response, chunks.
  rewrite serve_file_download.
  cbn [node_size] in *.
  split_and!; try assumption.
  - rewrite Hheaders. unfold download_headers.
    rewrite lookup_insert_ne by discriminate. apply lookup_insert_eq.
  - rewrite Hheaders. apply lookup_insert_eq.
  - rewrite Hheaders. unfold download_headers.
    rewrite lookup_insert_ne by discriminate.
    rewrite lookup_insert_ne by discriminate. apply lookup_insert_eq.
  - unfold body_bytes. rewrite Hbody, Hcat.
    apply take_ge. lia.
  - reflexivity.
  - apply Hidx. lia.
Qed.

Lemma download_is_byte_exact_witness :
  let r := send_server (H := demo_libs) "me" None (Some (FStr "a.txt"))
             false 8080 demo_world in
  outcome r = Forever
  /\ nodes (fs (final r)) !! realpath (fs (final r)) "/home/u/a.txt"
     = Some (RegularFile [x68; x69])
  /\ has_control "a.txt" = false
  /\ has_control (@magic_mime demo_libs [x68; x69]) = false
  /\ exists response chunks,
       serve (H := demo_libs) (file_app "/home/u/a.txt" "a.txt" 2)
         (GET "/download" None) (final r)
       = Run (Returned response) (final r)
             [EvPrint (msg_transferred (GET "/download" None))]
       /\ status response = 200
       /\ headers response !! "content-length" = Some "2"
       /\ headers response !! "content-disposition"
          = Some "attachment; filename=a.txt; size=2"
       /\ headers response !! "content-type"
          = Some "application/octet-stream"
       /\ body response = Stream chunks
       /\ body_bytes response = [x68; x69]
       /\ Z.of_nat chunk_size = 8192
       /\ forall (i : nat) (c : bytes),
            chunks !! i = Some c ->
            c = take chunk_size (drop (i * chunk_size) [x68; x69])
            /\ c <> [].
Proof.
  intros r.
  assert (Hout : outcome r = Forever) by (vm_compute; reflexivity).
  assert (Hnode : nodes (fs (final r)) !! realpath (fs (final r))
                    "/home/u/a.txt"
                  = Some (RegularFile [x68; x69]))
    by (vm_compute; reflexivity).
  assert (Hname : has_control "a.txt" = false) by reflexivity.
  assert (Hmime : has_control (@magic_mime demo_libs [x68; x69]) = false)
    by reflexivity.
  split; [exact Hout |]. split; [exact Hnode |].
  split; [exact Hname |]. split; [exact Hmime |].
  destruct (download_is_byte_exact (H := demo_libs) demo_world "me"
              (Some (FStr "a.txt")) false 8080 Hout)
    as (app & path & name & Hsite & Hpath & Hfname & Hserve).
  assert (Happ : sites (final r) !! 8080
                 = Some (file_app "/home/u/a.txt" "a.txt" 2))
    by (vm_compute; reflexivity).
  fold r in Hsite, Hserve.
  rewrite Happ in Hsite. injection Hsite as <-.
  injection Hpath as <-. injection Hfname as <-.
  exact (Hserve (final r) [x68; x69] None Hnode Hnode Hname Hmime).
Defined.

(** ** Path components *)

Lemma split_pieces_no_sep (s : string) :
  Forall (fun piece => has_sep piece = false) (split os_path_sep s).
Proof.
  induction s as [| c s IH]; cbn.
  - repeat constructor.
  - destruct (Ascii.eqb c os_path_sep) eqn:Hc.
    + constructor; [reflexivity | exact IH].
    + destruct (split os_path_sep s) as [| h t].
      * constructor; [cbn; rewrite Hc; reflexivity | constructor].
      * inversion IH as [| ? ? Hh Ht]; subst.
        constructor; [cbn; rewrite Hc, Hh; reflexivity | exact Ht].
Qed.

Lemma split_no_sep (s : string) :
  has_sep s = false -> split os_path_sep s = [s].
Proof.
  induction s as [| c s IH]; cbn; [reflexivity |].
  intros Hs. apply orb_false_elim in Hs as [Hc Hrest].
  rewrite Hc, (IH Hrest). reflexivity.
Qed.

Lemma split_app_sep (d f : string) :
  split os_path_sep (d ++ String os_path_sep f)
  = (split os_path_sep d ++ split os_path_sep f)%list.
Proof.
  induction d as [| c d IH].
  - reflexivity.
  - change (String c d ++ String os_path_sep f)
      with (String c (d ++ String os_path_sep f)).
    cbn [split]. rewrite IH.
    destruct (Ascii.eqb c os_path_sep); [reflexivity |].
    pose proof (split_not_nil os_path_sep d) as Hd.
    destruct (split os_path_sep d) as [| h t]; [congruence | reflexivity].
Qed.

Lemma join_split (s : string) :
  sep_join os_path_sep (split os_path_sep s) = s.
Proof.
  unfold sep_join. induction s as [| c s IH]; cbn; [reflexivity |].
  destruct (Ascii.eqb c os_path_sep) eqn:Hc.
  - apply Ascii.eqb_eq in Hc as ->.
    pose proof (split_not_nil os_path_sep s) as Hs.
    destruct (split os_path_sep s) as [| h t]; [congruence |].
    cbn in *. rewrite IH. reflexivity.
  - pose proof (split_not_nil os_path_sep s) as Hs.
    destruct (split os_path_sep s) as [| h t]; [congruence |].
    destruct t as [| h' t]; cbn in *; rewrite <- IH; reflexivity.
Qed.

Lemma basename_no_sep (p : string) : has_sep (basename p) = false.
Proof.
  unfold basename.
  destruct (last (split os_path_sep p)) as [name |] eqn:Hlast;
    [| reflexivity].
  cbn. pose proof (split_pieces_no_sep p) as Hall.
  rewrite Forall_forall in Hall. apply Hall.
  rewrite last_lookup in Hlast.
  exact (list_elem_of_lookup_2 _ _ _ Hlast).
Qed.

Lemma basename_app_sep (d f : string) :
  has_sep f = false -> basename (d ++ String os_path_sep f) = f.
Proof.
  intros Hf. unfold basename.
  rewrite split_app_sep, (split_no_sep f Hf), last_snoc. reflexivity.
Qed.

Lemma last_sep_decompose (p : string) :
  has_sep p = true ->
  exists d f, p = d ++ String os_path_sep f /\ has_sep f = false.
Proof.
  induction p as [| c p IH]; [discriminate |].
  cbn [has_sep]. intros Hp.
  destruct (has_sep p) eqn:Hrest.
  - destruct (IH eq_refl) as (d & f & -> & Hf).
    exists (String c d), f. split; [reflexivity | exact Hf].
  - rewrite orb_false_r in Hp. apply Ascii.eqb_eq in Hp as ->.
    exists EmptyString, p. split; [reflexivity | exact Hrest].
Qed.

(** The last piece of the split is the last component, and nothing else
    is. *)
Lemma basename_is_last_component (p : string) :
  is_last_component p (basename p).
Proof.
  destruct (has_sep p) eqn:Hp.
  - destruct (last_sep_decompose p Hp) as (d & f & -> & Hf).
    rewrite (basename_app_sep d f Hf).
    split; [exact Hf | right; exists d; reflexivity].
  - assert (Hbase : basename p = p).
    { unfold basename. rewrite (split_no_sep p Hp). reflexivity. }
    rewrite Hbase. split; [exact Hp | left; reflexivity].
Qed.

Lemma last_component_basename (p name : string) :
  is_last_component p name -> name = basename p.
Proof.
  intros [Hname [-> | [d ->]]].
  - unfold basename. rewrite (split_no_sep name Hname). reflexivity.
  - rewrite (basename_app_sep d name Hname). reflexivity.
Qed.

(** ** Packaging *)

(** What a run of [send] on a resolved code does. *)
Lemma send_run `{Libs} :
  forall (w : World) code fa compress info,
    lookup_service w (code ++ service) = Some info ->
    send code (Some fa) compress w
    = let query := EvQuery service (code ++ service) in
      match paths_of fa with
      | [] => Run (Raised (ValueError msg_empty)) w [query]
      | first :: others =>
      let paths := first :: others in
      let z := zips (fs w) compress paths in
      let packaged := if z then get_zip_file (fs w) paths
                      else (inr (first, basename first), fs w) in
      let pre := query :: (if z then [EvZip paths] else []) in
      let fs1 := packaged.2 in
      let w1 := if z then with_fs fs1 w else w in
      match packaged.1 with
      | inl e => Run (Raised e) w1 pre
      | inr (artifact, name) =>
      match si_addresses info with
      | [] => Run (Raised IndexError) w1 pre
      | packed :: _ =>
      if decide (length packed = 4%nat) then
        let url := base_url info packed in
        let ask := EvGet (url ++ "/airshare") in
        match http_get (net w) (url ++ "/airshare") with
        | None => Run (Raised ConnectionError) w1 (pre ++ [ask])
        | Some answer =>
        if decide (answer ≠ "Upload Receiver") then
          Run (Returned 1) w1 (pre ++ [ask; EvPrint (msg_mismatch code)])
        else
          match nodes fs1 !! realpath fs1 artifact with
          | None => Run (Raised FileNotFoundError) w1 (pre ++ [ask])
          | Some (Directory _) =>
              Run (Raised IsADirectoryError) w1 (pre ++ [ask])
          | Some (RegularFile data) =>
              let post := EvPost (url ++ "/upload") "upload_file" name data in
              match http_post (net w) (url ++ "/upload") with
              | None => Run (Raised ConnectionError) w1 (pre ++ [ask; post])
              | Some _ =>
                  let upload := {| up_url := url ++ "/upload";
                                   up_field := "upload_file";
                                   up_name := name; up_data := data |} in
                  Run (Returned 0)
                      (with_received (received w ++ [upload]) w1)
                      (pre ++ [ask; post; EvPrint (msg_uploaded name code)])
              end
          end
        end
      else Run (Raised OSError) w1 pre
      end end end.
Proof.
  intros w code fa compress info Hlive.
  unfold send, zips, basename, base_url, msg_uploaded.
  cbn. rewrite Hlive.
  destruct fa as [s | [| p l]]; run_all.
Qed.

Lemma zips_true_iff (fs : FileSystem) (compress : bool) first others :
  zips fs compress (first :: others) = true
  <-> compress = true \/ (1 < length (first :: others))%nat
      \/ isdir fs first = true.
Proof.
  unfold zips. destruct compress; [tauto |].
  destruct (decide (1 < length (first :: others))%nat); [tauto |].
  split; [tauto | intros [Hc | [Hl | Hd]]; [discriminate | lia | exact Hd]].
Qed.

Lemma zips_false_single (fs : FileSystem) (compress : bool) first others :
  zips fs compress (first :: others) = false -> others = [].
Proof.
  unfold zips. destruct compress; [discriminate |].
  destruct (decide (1 < length (first :: others))%nat) as [| Hle];
    [discriminate |].
  intros _. destruct others; [reflexivity | cbn in Hle; lia].
Qed.

(** C6, as stated, fails for [send_server]: the display name of a single
    file is not the last component of the path that was given but of the
    path it resolves to.  Given the link [latest], which points to
    [/home/u/a.txt], nothing is archived and the file is served under the
    name "a.txt", while the last component of the given path is
    "latest". *)
Lemma served_name_follows_the_link :
  let r := send_server (H := demo_libs) "me" None (Some (FStr "latest"))
             false 8080 demo_world in
  paths_of (FStr "latest") = ["latest"]
  /\ zips (fs demo_world) false ["latest"] = false
  /\ performs_no is_zip r
  /\ outcome r = Forever
  /\ sites (final r) !! 8080 = Some (file_app "/home/u/a.txt" "a.txt" 2)
  /\ is_last_component "latest" "latest"
  /\ ~ is_last_component "latest" "a.txt".
Proof.
  intros r. split_and!; try (vm_compute; reflexivity).
  - unfold performs_no. vm_compute. repeat constructor.
  - split; [reflexivity | left; reflexivity].
  - intros Hlast. apply last_component_basename in Hlast.
    vm_compute in Hlast. discriminate Hlast.
Qed.

(** C6, amended.  A path has one last component.  The packaging step zips
    exactly when compression is forced, or more than one path is given,
    or the first path is a directory.  Both in [send], for a code that
    resolves, and in [send_server], for a free code and no text, a
    non-empty path list makes the call hand the whole list to
    [get_zip_file] exactly when the policy says so, and only once; when
    it does not, the file system is left as it was.
    Whatever [send] posts is then the content of the archive, under the
    name [get_zip_file] generated, or else the content of the single
    given file, under the last component of the given path.
    Whatever [send_server] binds serves then the archive, under the
    generated name (the last component of the resolved archive path if
    that name is empty), or else the single given file, under the last
    component of its resolved path. *)
Theorem packaging_policy `{Libs} :
  (forall path n1 n2,
      is_last_component path n1 -> is_last_component path n2 -> n1 = n2)
  /\ (forall fs compress first others,
        zips fs compress (first :: others) = true
        <-> compress = true \/ (1 < length (first :: others))%nat
            \/ isdir fs first = true)
  /\ (forall (w : World) code fa compress info first others,
        lookup_service w (code ++ service) = Some info ->
        paths_of fa = first :: others ->
        let r := send code (Some fa) compress w in
        let z := zips (fs w) compress (first :: others) in
        filter (fun e => is_zip e = true) (events r)
        = (if z then [EvZip (first :: others)] else [])
        /\ (z = false -> fs (final r) = fs w)
        /\ forall url field name data,
             In (EvPost url field name data) (events r) ->
             exists artifact,
               nodes (fs (final r)) !! realpath (fs (final r)) artifact
               = Some (RegularFile data)
               /\ if z
                  then get_zip_file (fs w) (first :: others)
                       = (inr (artifact, name), fs (final r))
                  else artifact = first /\ others = []
                       /\ is_last_component first name)
  /\ (forall (w : World) code fa compress port first others,
        lookup_service w (code ++ service) = None ->
        paths_of fa = first :: others ->
        let r := send_server code None (Some fa) compress port w in
        let z := zips (fs w) compress (first :: others) in
        filter (fun e => is_zip e = true) (events r)
        = (if z then [EvZip (first :: others)] else [])
        /\ (z = false -> fs (final r) = fs w)
        /\ forall host p,
             In (EvListen host p true) (events r) ->
             exists artifact name size,
               sites (final r) !! port
               = Some (file_app (realpath (fs (final r)) artifact) name size)
               /\ if z
                  then exists zname,
                      get_zip_file (fs w) (first :: others)
                      = (inr (artifact, zname), fs (final r))
                      /\ if decide (zname ≠ EmptyString) then name = zname
                         else is_last_component
                                (realpath (fs (final r)) artifact) name
                  else artifact = first /\ others = []
                       /\ is_last_component (realpath (fs w) first) name).
Proof.
  split_and!.
  - intros path n1 n2 H1 H2.
    rewrite (last_component_basename _ _ H1).
    rewrite (last_component_basename _ _ H2). reflexivity.
  - intros fs0 compress first others. apply zips_true_iff.
  - intros w code fa compress info first others Hlive Hpaths r z.
    subst r z.
    rewrite (send_run w code fa compress info Hlive), Hpaths. cbn zeta.
    destruct (zips (fs w) compress (first :: others)) eqn:Hz.
    + destruct (get_zip_file (fs w) (first :: others))
        as [[e | [artifact name]] fs1]; cbn [fst snd].
      { cbn. split_and!; [reflexivity | discriminate |].
        intros url field name data. not_in_trace. }
      repeat split_goal; cbn.
      all: split_and!; [reflexivity | discriminate |].
      all: intros url field name0 data0; try not_in_trace.
      all: intros Hin;
        repeat (destruct Hin as [Hin | Hin]; try discriminate Hin);
        try contradiction.
      all: injection Hin as <- <- <- <-.
      all: exists artifact; split; [assumption | reflexivity].
    + pose proof (zips_false_single _ _ _ _ Hz) as ->.
      cbn [fst snd].
      repeat split_goal; cbn.
      all: split_and!; [reflexivity | reflexivity |].
      all: intros url field name0 data0; try not_in_trace.
      all: intros Hin;
        repeat (destruct Hin as [Hin | Hin]; try discriminate Hin);
        try contradiction.
      all: injection Hin as <- <- <- <-.
      all: exists first; split_and!;
        [assumption | reflexivity | reflexivity
        | apply basename_is_last_component].
  - intros w code fa compress port first others Hfree Hpaths r z.
    subst r z.
    rewrite (send_server_file_run w code (Some fa) compress port), Hfree.
    cbn [from_option]. rewrite Hpaths. cbn zeta.
    destruct (zips (fs w) compress (first :: others)) eqn:Hz.
    + destruct (get_zip_file (fs w) (first :: others))
        as [[e | [artifact zname]] fs1]; cbn [fst snd].
      { cbn. split_and!; [reflexivity | discriminate |].
        intros host p. not_in_trace. }
      repeat split_goal; cbn.
      all: split_and!; [reflexivity | discriminate |].
      all: intros host p; try not_in_trace.
      all: intros _; eexists artifact, _, _;
        (split; [apply lookup_insert_eq |]).
      all: exists zname; split; [reflexivity |].
      all: try destruct (decide (zname ≠ EmptyString));
        first [reflexivity | apply basename_is_last_component | discriminate].
    + pose proof (zips_false_single _ _ _ _ Hz) as ->.
      cbn [fst snd].
      repeat split_goal; cbn.
      all: split_and!; [reflexivity | reflexivity |].
      all: intros host p; try not_in_trace.
      all: intros _; eexists first, _, _;
        (split; [apply lookup_insert_eq |]).
      all: split_and!; [reflexivity | reflexivity
                       | apply basename_is_last_component].
Qed.

Lemma packaging_policy_witness :
  lookup_service demo_world ("desk" ++ service) = Some desk
  /\ paths_of (FStr "a.txt") = ["a.txt"]
  /\ (let r := send (H := demo_libs) "desk" (Some (FStr "a.txt")) false
                 demo_world in
      zips (fs demo_world) false ["a.txt"] = false
      /\ In (EvPost "http://192.168.1.7:8000/upload" "upload_file" "a.txt"
               [x68; x69]) (events r)
      /\ filter (fun e => is_zip e = true) (events r) = []
      /\ fs (final r) = fs demo_world
      /\ exists artifact,
           nodes (fs (final r)) !! realpath (fs (final r)) artifact
           = Some (RegularFile [x68; x69])
           /\ artifact = "a.txt" /\ @nil string = []
           /\ is_last_component "a.txt" "a.txt")
  /\ lookup_service demo_world ("me" ++ service) = None
  /\ paths_of (FStr "docs") = ["docs"]
  /\ (let r := send_server (H := demo_libs) "me" None (Some (FStr "docs"))
                 false 8080 demo_world in
      zips (fs demo_world) false ["docs"] = true
      /\ In (EvListen "0.0.0.0" "8080" true) (events r)
      /\ filter (fun e => is_zip e = true) (events r) = [EvZip ["docs"]]
      /\ exists artifact name size,
           sites (final r) !! 8080
           = Some (file_app (realpath (fs (final r)) artifact) name size)
           /\ exists zname,
                get_zip_file (Libs := demo_libs) (fs demo_world) ["docs"]
                = (inr (artifact, zname), fs (final r))
                /\ if decide (zname ≠ EmptyString) then name = zname
                   else is_last_component
                          (realpath (fs (final r)) artifact) name).
Proof.
  destruct (packaging_policy (H := demo_libs)) as (_ & _ & Hsend & Hserver).
  assert (Hdesk : lookup_service demo_world ("desk" ++ service) = Some desk)
    by (vm_compute; reflexivity).
  assert (Hme : lookup_service demo_world ("me" ++ service) = None)
    by (vm_compute; reflexivity).
  split; [exact Hdesk |]. split; [reflexivity |]. split.
  { intros r.
    destruct (Hsend demo_world "desk" (FStr "a.txt") false desk "a.txt" []
                Hdesk eq_refl) as (Hzip & Hfs & Hpost).
    assert (Hz : zips (fs demo_world) false ["a.txt"] = false)
      by (vm_compute; reflexivity).
    assert (Hin : In (EvPost "http://192.168.1.7:8000/upload" "upload_file"
                        "a.txt" [x68; x69]) (events r)).
    { vm_compute. right. right. left. reflexivity. }
    fold r in Hzip, Hfs, Hpost. rewrite Hz in Hzip, Hpost.
    split; [exact Hz |]. split; [exact Hin |]. split; [exact Hzip |].
    split; [exact (Hfs Hz) |].
    exact (Hpost _ _ _ _ Hin). }
  split; [exact Hme |]. split; [reflexivity |].
  intros r.
  destruct (Hserver demo_world "me" (FStr "docs") false 8080 "docs" []
              Hme eq_refl) as (Hzip & _ & Hbound).
  assert (Hz : zips (fs demo_world) false ["docs"] = true)
    by (vm_compute; reflexivity).
  assert (Hin : In (EvListen "0.0.0.0" "8080" true) (events r)).
  { vm_compute. right. right. right. left. reflexivity. }
  fold r in Hzip, Hbound. rewrite Hz in Hzip, Hbound.
  split; [exact Hz |]. split; [exact Hin |]. split; [exact Hzip |].
  exact (Hbound _ _ Hin).
Defined.

Lemma registration_before_bind_witness :
  (let r := send_server (H := demo_libs) "me" None (Some (FStr "a.txt"))
              false 8080 demo_world in
   outcome r = Forever
   /\ registration_precedes_listening ("me" ++ service) (events r)
   /\ services (final r) !! ("me" ++ service)
      = Some (own_record (H := demo_libs) demo_world "me" 8080)
   /\ is_Some (sites (final r) !! 8080))
  /\ (let r := send_server (H := demo_libs) "desk" (Some "hello") None false
                 80 quiet_world in
      outcome r = Raised NonUniqueNameException
      /\ In (EvRegister (own_record (H := demo_libs) quiet_world "desk" 80)
                false) (events r)
      /\ performs_no is_listen r).
Proof.
  split.
  - intros r.
    destruct (registration_before_bind (H := demo_libs) demo_world "me" None
                (Some (FStr "a.txt")) false 8080)
      as (Horder & _ & Hserving).
    assert (Hout : outcome r = Forever) by (vm_compute; reflexivity).
    destruct (Hserving Hout) as (Hname & Hport & _).
    split_and!; assumption.
  - intros r.
    destruct (registration_before_bind (H := demo_libs) quiet_world "desk"
                (Some "hello") None false 80)
      as (_ & Hrejected & _).
    assert (Hin : In (EvRegister
                        (own_record (H := demo_libs) quiet_world "desk" 80)
                        false) (events r)).
    { vm_compute. right. left. reflexivity. }
    split_and!; [vm_compute; reflexivity | exact Hin | exact (Hrejected _ Hin)].
Defined.

(** ** Worked runs on the small network *)

(** An upload of one file to the receiver. *)
Example upload_one_file :
  let r := send (H := demo_libs) "desk" (Some (FStr "a.txt")) false
             demo_world in
  outcome r = Returned 0
  /\ events r
     = [EvQuery service ("desk" ++ service);
        EvGet "http://192.168.1.7:8000/airshare";
        EvPost "http://192.168.1.7:8000/upload" "upload_file" "a.txt"
          [x68; x69];
        EvPrint (msg_uploaded "a.txt" "desk")].
Proof. intros r. split; vm_compute; reflexivity. Qed.

(** A directory is zipped before it is uploaded. *)
Example upload_directory :
  let r := send (H := demo_libs) "desk" (Some (FList ["docs"])) false
             demo_world in
  outcome r = Returned 0
  /\ events r
     = [EvQuery service ("desk" ++ service);
        EvZip ["docs"];
        EvGet "http://192.168.1.7:8000/airshare";
        EvPost "http://192.168.1.7:8000/upload" "upload_file" "airshare.zip"
          [x50; x4b; x05; x06];
        EvPrint (msg_uploaded "airshare.zip" "desk")].
Proof. intros r. split; vm_compute; reflexivity. Qed.

(** Through a symbolic link, [send] names the upload after the link while
    [send_server] names the download after the file the link resolves
    to. *)
Example names_through_a_link :
  In (EvPost "http://192.168.1.7:8000/upload" "upload_file" "latest"
        [x68; x69])
     (events (send (H := demo_libs) "desk" (Some (FStr "latest")) false
                demo_world))
  /\ sites (final (send_server (H := demo_libs) "me" None
                     (Some (FStr "latest")) false 8080 demo_world)) !! 8080
     = Some (file_app "/home/u/a.txt" "a.txt" 2).
Proof. split; [vm_compute; tauto | vm_compute; reflexivity]. Qed.

(** A file of 20000 bytes goes out as two chunks of 8192 bytes and one of
    3616. *)
Example download_in_three_chunks :
  let w := final (send_server (H := demo_libs) "me" None
                    (Some (FStr "big.bin")) false 8080 demo_world) in
  let app := file_app "/home/u/big.bin" "big.bin" 20000 in
  sites w !! 8080 = Some app
  /\ match outcome (serve (H := demo_libs) app (GET "/download" None) w) with
     | Returned response =>
         match body response with
         | Stream chunks => map (fun c => Z.of_nat (length c)) chunks
         | Text _ => []
         end
     | _ => []
     end = [8192; 8192; 3616].
Proof. intros w app. split; vm_compute; reflexivity. Qed.

(** * Further properties *)

(** ** The world a serving run leaves *)

(** Once [send_server] serves, the world differs from the one it started
    in by its own record, its own site and what the archiver did to the
    file system. *)
Lemma send_server_serving_world `{Libs} :
  forall (w : World) code text file compress port,
    let r := send_server code text file compress port w in
    outcome r = Forever ->
    services w !! (code ++ service) = None
    /\ 0 <= port <= 65535
    /\ (port <> 0 -> sites w !! port = None)
    /\ services (final r)
       = <[code ++ service := own_record w code port]> (services w)
    /\ timely (final r) = timely w
    /\ net (final r) = net w
    /\ exists app,
         sites (final r) = <[port := app]> (sites w)
         /\ ((exists t, text = Some t /\ t <> EmptyString /\ app = text_app t)
             \/ (text = None
                 /\ exists path name size, app = file_app path name size)).
Proof.
  intros w code text file compress port r Hout.
  destruct text as [t |].
  - destruct (decide (t = EmptyString)) as [-> | Ht].
    { exfalso. exact (send_server_empty_text w code file compress port Hout). }
    subst r. revert Hout.
    rewrite (send_server_text_run w code t file compress port Ht).
    destruct (lookup_service w (code ++ service)); [discriminate |].
    cbn zeta.
    destruct (services w !! (code ++ service)); [discriminate |].
    destruct (decide (0 <= port <= 65535)); [| discriminate].
    destruct (decide (port = 0)) as [Hzero | Hport];
      [| destruct (sites w !! port); [discriminate |]].
    all: destruct (decide (length (get_local_ip_address (net w)) = 4%nat));
      [| discriminate].
    all: intros _; cbn; split_and!; try reflexivity; try lia;
      try (intros ?; first [reflexivity | contradiction]).
    all: exists (text_app t); split; [reflexivity |].
    all: left; exists t; auto.
  - subst r. revert Hout.
    rewrite (send_server_file_run w code file compress port).
    destruct (lookup_service w (code ++ service)); [discriminate |].
    destruct (from_option paths_of [] file) as [| first others];
      [discriminate |].
    cbn zeta.
    destruct (if zips (fs w) compress (first :: others)
              then get_zip_file (fs w) (first :: others)
              else (inr (first, EmptyString), fs w))
      as [[e | [artifact zname]] fs1]; [discriminate |].
    cbn [fst snd].
    destruct (services w !! (code ++ service)); [discriminate |].
    destruct (nodes fs1 !! realpath fs1 (realpath fs1 artifact));
      [| discriminate].
    destruct (decide (0 <= port <= 65535)); [| discriminate].
    destruct (decide (port = 0)) as [Hzero | Hport];
      [| destruct (sites w !! port); [discriminate |]].
    all: destruct (decide (length (get_local_ip_address (net w)) = 4%nat));
      [| discriminate].
    all: intros _; cbn; split_and!; try reflexivity; try lia;
      try (intros ?; first [reflexivity | contradiction]).
    all: eexists; split; [reflexivity |].
    all: right; split; [reflexivity |]; eauto.
Qed.

(** ** What [send] posts, and to whom *)

(** X2.  [send] posts only after the resolved service has identified
    itself as an upload receiver: a POST in the trace of a call goes to
    /upload of the resolved record's first address and port, in the field
    [upload_file], that very service answered "Upload Receiver" on
    /airshare, the bytes posted are those of a regular file of the final
    file system, and it is the only POST of the call. *)
Theorem send_posts_only_to_receivers `{Libs} :
  forall (w : World) code file compress url field name data,
    let r := send code file compress w in
    In (EvPost url field name data) (events r) ->
    exists info packed others artifact,
      lookup_service w (code ++ service) = Some info
      /\ si_addresses info = packed :: others
      /\ length packed = 4%nat
      /\ url = base_url info packed ++ "/upload"
      /\ field = "upload_file"
      /\ http_get (net w) (base_url info packed ++ "/airshare")
         = Some "Upload Receiver"
      /\ nodes (fs (final r)) !! realpath (fs (final r)) artifact
         = Some (RegularFile data)
      /\ filter (fun e => is_post e = true) (events r)
         = [EvPost url field name data].
Proof.
  intros w code file compress url field name data r. subst r.
  unfold send, base_url.
  repeat (cbn in *; finish; try not_in_trace; split_goal).
  all: cbn in *.
  all: intros Hin;
    repeat (destruct Hin as [Hin | Hin]; try discriminate Hin);
    try contradiction.
  all: injection Hin as <- <- <- <-.
  all: match goal with
       | Hn : ~ ?s <> "Upload Receiver" |- _ =>
           assert (s = "Upload Receiver")
             by (destruct (decide (s = "Upload Receiver"));
                 [assumption | contradiction]);
           subst s
       end.
  all: do 4 eexists; split_and!; try reflexivity; try eassumption.
Qed.

Lemma send_posts_only_to_receivers_witness :
  let r := send (H := demo_libs) "desk" (Some (FStr "a.txt")) false
             demo_world in
  In (EvPost "http://192.168.1.7:8000/upload" "upload_file" "a.txt"
        [x68; x69]) (events r)
  /\ exists info packed others artifact,
       lookup_service demo_world ("desk" ++ service) = Some info
       /\ si_addresses info = packed :: others
       /\ length packed = 4%nat
       /\ "http://192.168.1.7:8000/upload" = base_url info packed ++ "/upload"
       /\ "upload_file" = "upload_file"
       /\ http_get (net demo_world) (base_url info packed ++ "/airshare")
          = Some "Upload Receiver"
       /\ nodes (fs (final r)) !! realpath (fs (final r)) artifact
          = Some (RegularFile [x68; x69])
       /\ filter (fun e => is_post e = true) (events r)
          = [EvPost "http://192.168.1.7:8000/upload" "upload_file" "a.txt"
               [x68; x69]].
Proof.
  intros r.
  assert (Hin : In (EvPost "http://192.168.1.7:8000/upload" "upload_file"
                      "a.txt" [x68; x69]) (events r))
    by (vm_compute; tauto).
  split; [exact Hin |].
  exact (send_posts_only_to_receivers (H := demo_libs) demo_world "desk"
           (Some (FStr "a.txt")) false _ _ _ _ Hin).
Defined.

(** ** What [send] leaves alone *)

Lemma performs_no_forallb {A} (kind : event -> bool) (r : run A) :
  forallb (fun e => negb (kind e)) (events r) = true -> performs_no kind r.
Proof.
  unfold performs_no. induction (events r) as [| e evs IH]; cbn.
  - constructor.
  - intros Hall. apply andb_prop in Hall as [He Hevs].
    constructor; [| exact (IH Hevs)].
    destruct (kind e); [discriminate He | reflexivity].
Qed.

Lemma forallb_performs_no {A} (kind : event -> bool) (r : run A) :
  performs_no kind r -> forallb (fun e => negb (kind e)) (events r) = true.
Proof.
  unfold performs_no. induction 1 as [| e evs He _ IH]; cbn.
  - reflexivity.
  - rewrite He, IH. reflexivity.
Qed.

(** X3.  [send] is a client and nothing else.  Whatever its arguments
    and however it ends, it registers nothing and binds nothing, so the
    discovery records and the bound ports are as they were; its trace
    starts with the one discovery query it makes; the file system is
    unchanged unless it called the archiver; and its one effect on the
    servers of the network is the upload it delivers: a call that returns
    0 has added exactly the file it posted to what they have received,
    and a call that makes no POST has added nothing. *)
Theorem send_is_a_pure_client `{Libs} :
  forall (w : World) code file compress,
    let r := send code file compress w in
    services (final r) = services w
    /\ sites (final r) = sites w
    /\ performs_no is_register r
    /\ performs_no is_listen r
    /\ (exists rest,
          events r = EvQuery service (code ++ service) :: rest
          /\ Forall (fun e => is_query e = false) rest)
    /\ (performs_no is_zip r -> fs (final r) = fs w)
    /\ (performs_no is_post r -> received (final r) = received w)
    /\ (outcome r = Returned 0 ->
        exists url name data,
          In (EvPost url "upload_file" name data) (events r)
          /\ received (final r)
             = (received w ++ [{| up_url := url; up_field := "upload_file";
                                  up_name := name; up_data := data |}])%list).
Proof.
  intros w code file compress r. subst r.
  split_and!.
  - unfold send. run_all.
  - unfold send. run_all.
  - apply performs_no_forallb. unfold send. run_all.
  - apply performs_no_forallb. unfold send. run_all.
  - assert (Hq : match events (send code file compress w) with
                 | e :: rest =>
                     e = EvQuery service (code ++ service)
                     /\ forallb (fun e => negb (is_query e)) rest = true
                 | [] => False
                 end).
    { unfold send. run_all; split; reflexivity. }
    destruct (events (send code file compress w)) as [| e rest];
      [contradiction |].
    destruct Hq as [-> Hrest]. exists rest. split; [reflexivity |].
    exact (performs_no_forallb is_query (Run (Returned tt) w rest) Hrest).
  - intros Hzip. apply forallb_performs_no in Hzip. revert Hzip.
    unfold send. run_all.
  - intros Hpost. apply forallb_performs_no in Hpost. revert Hpost.
    unfold send. run_all.
  - unfold send. run_all.
    all: intros _; do 3 eexists; split; [| reflexivity].
    all: cbn; auto 10.
Qed.

Lemma send_is_a_pure_client_witness :
  let r := send (H := demo_libs) "desk" (Some (FStr "a.txt")) false
             demo_world in
  performs_no is_zip r
  /\ outcome r = Returned 0
  /\ fs (final r) = fs demo_world
  /\ services (final r) = services demo_world
  /\ sites (final r) = sites demo_world
  /\ performs_no is_register r
  /\ performs_no is_listen r
  /\ exists url name data,
       In (EvPost url "upload_file" name data) (events r)
       /\ received (final r)
          = (received demo_world
             ++ [{| up_url := url; up_field := "upload_file";
                    up_name := name; up_data := data |}])%list.
Proof.
  intros r.
  destruct (send_is_a_pure_client (H := demo_libs) demo_world "desk"
              (Some (FStr "a.txt")) false)
    as (Hs & Hp & Hreg & Hlisten & _ & Hfs & _ & Hup).
  assert (Hzip : performs_no is_zip r).
  { apply performs_no_forallb. vm_compute. reflexivity. }
  assert (Hout : outcome r = Returned 0) by (vm_compute; reflexivity).
  split; [exact Hzip |]. split; [exact Hout |].
  split; [exact (Hfs Hzip) |]. split; [exact Hs |]. split; [exact Hp |].
  split; [exact Hreg |]. split; [exact Hlisten |].
  exact (Hup Hout).
Defined.

(** ** Senders do not take uploads *)

Lemma send_blocked_by_role `{Libs} :
  forall (w : World) code file compress info packed others answer,
    lookup_service w (code ++ service) = Some info ->
    si_addresses info = packed :: others ->
    http_get (net w) (base_url info packed ++ "/airshare") = Some answer ->
    answer <> "Upload Receiver" ->
    let r := send code file compress w in
    performs_no is_post r /\ outcome r <> Returned 0.
Proof.
  intros w code file compress info packed others answer
         Hlive Haddr Hget Hanswer r.
  subst r. unfold send, base_url in *. split.
  - apply performs_no_forallb. cbn. rewrite Hlive, Haddr. run_all.
  - cbn. rewrite Hlive, Haddr. run_all.
Qed.

(** X1.  A server started by [send_server] never takes an upload.  Let a
    run of [send_server] serve, and let a later call of [send] resolve its
    code to a record whose /airshare is answered by that server's
    application.  Then the call makes no POST and does not return 0,
    whatever it was asked to send. *)
Theorem senders_take_no_upload `{Libs} :
  forall (w : World) code text file compress port,
    let r := send_server code text file compress port w in
    outcome r = Forever ->
    forall app, sites (final r) !! port = Some app ->
    forall (w' : World) code' file' compress' info packed others peer
           response answer,
      lookup_service w' (code' ++ service) = Some info ->
      si_addresses info = packed :: others ->
      outcome (serve app (GET "/airshare" peer) w') = Returned response ->
      body response = Text answer ->
      http_get (net w') (base_url info packed ++ "/airshare") = Some answer ->
      let u := send code' file' compress' w' in
      performs_no is_post u /\ outcome u <> Returned 0.
Proof.
  intros w code text file compress port r Hout app Happ
         w' code' file' compress' info packed others peer response answer
         Hlive Haddr Hserve Hbody Hget.
  apply (send_blocked_by_role w' code' file' compress' info packed others
           answer Hlive Haddr Hget).
  destruct (send_server_serving_world w code text file compress port Hout)
    as (_ & _ & _ & _ & _ & _ & app' & Hsites & Hshape).
  fold r in Hsites. rewrite Hsites, lookup_insert_eq in Happ.
  injection Happ as <-.
  destruct Hshape as [(t & _ & _ & ->) | (_ & path & name & size & ->)];
    cbn in Hserve; injection Hserve as <-; cbn in Hbody;
    injection Hbody as <-; discriminate.
Qed.

Lemma senders_take_no_upload_witness :
  let r := send_server (H := demo_libs) "me" None (Some (FStr "a.txt")) false
             8080 demo_world in
  let u := send (H := demo_libs) "me" (Some (FStr "a.txt")) false
             served_world in
  outcome r = Forever
  /\ sites (final r) !! 8080 = Some (file_app "/home/u/a.txt" "a.txt" 2)
  /\ lookup_service served_world ("me" ++ service)
     = Some (own_record (H := demo_libs) demo_world "me" 8080)
  /\ http_get (net served_world) "http://192.168.1.5:8080/airshare"
     = Some "File Sender"
  /\ performs_no is_post u
  /\ outcome u <> Returned 0.
Proof.
  intros r u.
  assert (Hout : outcome r = Forever) by (vm_compute; reflexivity).
  assert (Happ : sites (final r) !! 8080
                 = Some (file_app "/home/u/a.txt" "a.txt" 2))
    by (vm_compute; reflexivity).
  assert (Hlive : lookup_service served_world ("me" ++ service)
                  = Some (own_record (H := demo_libs) demo_world "me" 8080))
    by (vm_compute; reflexivity).
  assert (Hget : http_get (net served_world)
                   "http://192.168.1.5:8080/airshare" = Some "File Sender")
    by (vm_compute; reflexivity).
  split_and!; try assumption;
    apply (senders_take_no_upload (H := demo_libs) demo_world "me" None
             (Some (FStr "a.txt")) false 8080 Hout _ Happ served_world "me"
             (Some (FStr "a.txt")) false
             (own_record (H := demo_libs) demo_world "me" 8080)
             [xc0; xa8; x01; x05] [] None
             (text_response "text/plain" "File Sender") "File Sender"
             Hlive eq_refl eq_refl eq_refl Hget).
Defined.

(** ** Edge cases of [send_server] *)

Lemma send_server_taken_run `{Libs} :
  forall (w : World) code text file compress port info,
    lookup_service w (code ++ service) = Some info ->
    send_server code text file compress port w
    = Run (Raised (ValueError (msg_exists code))) w
          [EvQuery service (code ++ service)].
Proof.
  intros w code text file compress port info Hlive.
  unfold send_server. cbn. rewrite Hlive. reflexivity.
Qed.

(** X4.  With nothing to share, [send_server] gives up before it touches
    the network state: when the text is absent or empty and the file is
    absent, the empty string or the empty list, and the code is free, the
    call raises the either-file-or-text [ValueError] right after the
    lookup, with the world unchanged, nothing registered and nothing
    bound. *)
Theorem send_server_nothing_to_share `{Libs} :
  forall (w : World) code text file compress port,
    lookup_service w (code ++ service) = None ->
    truthy_str text = false ->
    from_option paths_of [] file = [] ->
    send_server code text file compress port w
    = Run (Raised (ValueError msg_missing)) w
          [EvQuery service (code ++ service)].
Proof.
  intros w code text file compress port Hfree Htext Hfile.
  unfold send_server, msg_missing. cbn. rewrite Hfree, Htext. cbn.
  destruct file as [[s | l] |]; cbn in Hfile.
  - destruct (decide (s = EmptyString)); [| discriminate Hfile].
    destruct text; reflexivity.
  - subst l. destruct text; reflexivity.
  - destruct text; reflexivity.
Qed.

Lemma send_server_nothing_to_share_witness :
  lookup_service demo_world ("me" ++ service) = None
  /\ truthy_str (Some EmptyString) = false
  /\ from_option paths_of [] (Some (FList [])) = []
  /\ send_server (H := demo_libs) "me" (Some EmptyString) (Some (FList []))
       true 80 demo_world
     = Run (Raised (ValueError msg_missing)) demo_world
           [EvQuery service ("me" ++ service)].
Proof.
  assert (Hfree : lookup_service demo_world ("me" ++ service) = None)
    by (vm_compute; reflexivity).
  split; [exact Hfree |]. split; [reflexivity |]. split; [reflexivity |].
  exact (send_server_nothing_to_share (H := demo_libs) demo_world "me"
           (Some EmptyString) (Some (FList [])) true 80 Hfree eq_refl
           eq_refl).
Defined.

(** X5.  The empty string as text does not fall back to the file.  With
    text [""] and a non-empty path list, on a free name and a free port
    between 1 and 65535,
    [send_server] skips packaging, registers, binds a text application
    whose text is the path list itself, and then fails with [TypeError]
    while composing its announcement: it never reaches the serving loop,
    and it leaves the name registered and the port bound. *)
Theorem send_server_empty_text_shadows_file `{Libs} :
  forall (w : World) code fa compress port first others,
    paths_of fa = first :: others ->
    services w !! (code ++ service) = None ->
    0 < port <= 65535 ->
    sites w !! port = None ->
    length (get_local_ip_address (net w)) = 4%nat ->
    let r := send_server code (Some EmptyString) (Some fa) compress port w in
    r = Run (Raised TypeError)
          (with_sites
             (<[port := paths_as_text_app (first :: others)]> (sites w))
             (with_services
                (<[code ++ service := own_record w code port]> (services w))
                w))
          [EvQuery service (code ++ service);
           EvRegister (own_record w code port) true;
           EvListen "0.0.0.0" (str port) true]
    /\ performs_no is_zip r.
Proof.
  intros w code fa compress port first others Hpaths Hfree Hrange Hport Hip r.
  assert (Hr : r = Run (Raised TypeError)
          (with_sites
             (<[port := paths_as_text_app (first :: others)]> (sites w))
             (with_services
                (<[code ++ service := own_record w code port]> (services w))
                w))
          [EvQuery service (code ++ service);
           EvRegister (own_record w code port) true;
           EvListen "0.0.0.0" (str port) true]).
  { subst r. unfold send_server, own_record, paths_as_text_app.
    change (truthy_str (Some EmptyString)) with false.
    pose proof (lookup_service_free _ _ Hfree) as Hlook.
    destruct fa as [s | l]; cbn in Hpaths.
    - destruct (decide (s = EmptyString)) eqn:Hs; [discriminate Hpaths |].
      injection Hpaths as <- <-. run_all; lia.
    - subst l. run_all; lia. }
  split; [exact Hr |]. rewrite Hr. unfold performs_no. cbn.
  repeat constructor.
Qed.

Lemma send_server_empty_text_shadows_file_witness :
  paths_of (FStr "a.txt") = ["a.txt"]
  /\ services demo_world !! ("me" ++ service) = None
  /\ 0 < 8080 <= 65535
  /\ sites demo_world !! 8080 = None
  /\ length (get_local_ip_address (Libs := demo_libs) (net demo_world))
     = 4%nat
  /\ outcome (send_server (H := demo_libs) "me" (Some EmptyString)
                (Some (FStr "a.txt")) false 8080 demo_world)
     = Raised TypeError.
Proof.
  assert (Hfree : services demo_world !! ("me" ++ service) = None)
    by (vm_compute; reflexivity).
  assert (Hport : sites demo_world !! 8080 = None)
    by (vm_compute; reflexivity).
  assert (Hrange : 0 < 8080 <= 65535) by lia.
  split; [reflexivity |]. split; [exact Hfree |]. split; [exact Hrange |].
  split; [exact Hport |]. split; [reflexivity |].
  destruct (send_server_empty_text_shadows_file (H := demo_libs) demo_world
              "me" (FStr "a.txt") false 8080 "a.txt" [] eq_refl Hfree Hrange
              Hport eq_refl) as [Hr _].
  rewrite Hr. reflexivity.
Defined.

(** X6.  A missing file is found out only after the name is taken.  For a
    single path that is no directory and at which nothing exists, with
    compression off and the code free, [send_server] registers its record
    and only then fails with [FileNotFoundError] on the size of the file:
    no port is bound, and the record stays announced. *)
Theorem send_server_registers_before_stat `{Libs} :
  forall (w : World) code fa port first,
    paths_of fa = [first] ->
    isdir (fs w) first = false ->
    nodes (fs w) !! realpath (fs w) (realpath (fs w) first) = None ->
    services w !! (code ++ service) = None ->
    let r := send_server code None (Some fa) false port w in
    r = Run (Raised FileNotFoundError)
          (with_services
             (<[code ++ service := own_record w code port]> (services w)) w)
          [EvQuery service (code ++ service);
           EvRegister (own_record w code port) true]
    /\ services (final r) !! (code ++ service)
       = Some (own_record w code port)
    /\ sites (final r) = sites w.
Proof.
  intros w code fa port first Hpaths Hdir Hnone Hfree r.
  assert (Hr : r = Run (Raised FileNotFoundError)
          (with_services
             (<[code ++ service := own_record w code port]> (services w)) w)
          [EvQuery service (code ++ service);
           EvRegister (own_record w code port) true]).
  { subst r. unfold send_server, own_record.
    pose proof (lookup_service_free _ _ Hfree) as Hlook.
    destruct fa as [s | l]; cbn in Hpaths.
    - destruct (decide (s = EmptyString)) eqn:Hs; [discriminate Hpaths |].
      injection Hpaths as <-. run_all.
    - subst l. run_all. }
  rewrite Hr. cbn. split_and!; [reflexivity | apply lookup_insert_eq
                               | reflexivity].
Qed.

Lemma send_server_registers_before_stat_witness :
  paths_of (FStr "gone.txt") = ["gone.txt"]
  /\ isdir (fs demo_world) "gone.txt" = false
  /\ nodes (fs demo_world)
       !! realpath (fs demo_world) (realpath (fs demo_world) "gone.txt")
     = None
  /\ services demo_world !! ("me" ++ service) = None
  /\ let r := send_server (H := demo_libs) "me" None (Some (FStr "gone.txt"))
                false 8080 demo_world in
     outcome r = Raised FileNotFoundError
     /\ services (final r) !! ("me" ++ service)
        = Some (own_record (H := demo_libs) demo_world "me" 8080)
     /\ sites (final r) = sites demo_world.
Proof.
  assert (Hdir : isdir (fs demo_world) "gone.txt" = false)
    by (vm_compute; reflexivity).
  assert (Hnone : nodes (fs demo_world)
                    !! realpath (fs demo_world)
                         (realpath (fs demo_world) "gone.txt") = None)
    by (vm_compute; reflexivity).
  assert (Hfree : services demo_world !! ("me" ++ service) = None)
    by (vm_compute; reflexivity).
  split; [reflexivity |]. split; [exact Hdir |]. split; [exact Hnone |].
  split; [exact Hfree |]. intros r.
  destruct (send_server_registers_before_stat (H := demo_libs) demo_world
              "me" (FStr "gone.txt") 8080 "gone.txt" eq_refl Hdir Hnone
              Hfree) as (Hr & Hname & Hsites).
  fold r in Hr, Hname, Hsites.
  split_and!; [rewrite Hr; reflexivity | exact Hname | exact Hsites].
Defined.

(** X7.  A failure of the archiver ends both entry points at once.  When
    the packaging policy asks for an archive and [get_zip_file] raises,
    [send_server] (on a free code) and [send] (on a resolved code) raise
    the same exception with nothing done but the lookup and the archiver
    call: no registration, no bind, no HTTP request. *)
Theorem archiver_failure_stops_everything `{Libs} :
  forall (w : World) code fa compress port first others e fs',
    paths_of fa = first :: others ->
    zips (fs w) compress (first :: others) = true ->
    get_zip_file (fs w) (first :: others) = (inl e, fs') ->
    (lookup_service w (code ++ service) = None ->
     send_server code None (Some fa) compress port w
     = Run (Raised e) (with_fs fs' w)
           [EvQuery service (code ++ service); EvZip (first :: others)])
    /\ (forall info,
          lookup_service w (code ++ service) = Some info ->
          send code (Some fa) compress w
          = Run (Raised e) (with_fs fs' w)
                [EvQuery service (code ++ service); EvZip (first :: others)]).
Proof.
  intros w code fa compress port first others e fs' Hpaths Hz Hzip.
  split.
  - intros Hfree.
    rewrite (send_server_file_run w code (Some fa) compress port).
    rewrite Hfree. cbn [from_option]. rewrite Hpaths. cbn zeta.
    rewrite Hz, Hzip. reflexivity.
  - intros info Hlive.
    rewrite (send_run w code fa compress info Hlive), Hpaths. cbn zeta.
    rewrite Hz, Hzip. reflexivity.
Qed.

Lemma archiver_failure_stops_everything_witness :
  paths_of (FStr "docs") = ["docs"]
  /\ zips (fs demo_world) false ["docs"] = true
  /\ get_zip_file (Libs := failing_libs) (fs demo_world) ["docs"]
     = (inl ZipFailure, fs demo_world)
  /\ lookup_service demo_world ("me" ++ service) = None
  /\ lookup_service demo_world ("desk" ++ service) = Some desk
  /\ send_server (H := failing_libs) "me" None (Some (FStr "docs")) false 80
       demo_world
     = Run (Raised ZipFailure) (with_fs (fs demo_world) demo_world)
           [EvQuery service ("me" ++ service); EvZip ["docs"]]
  /\ send (H := failing_libs) "desk" (Some (FStr "docs")) false demo_world
     = Run (Raised ZipFailure) (with_fs (fs demo_world) demo_world)
           [EvQuery service ("desk" ++ service); EvZip ["docs"]].
Proof.
  assert (Hz : zips (fs demo_world) false ["docs"] = true)
    by (vm_compute; reflexivity).
  assert (Hfree : lookup_service demo_world ("me" ++ service) = None)
    by (vm_compute; reflexivity).
  assert (Hlive : lookup_service demo_world ("desk" ++ service) = Some desk)
    by (vm_compute; reflexivity).
  split; [reflexivity |]. split; [exact Hz |]. split; [reflexivity |].
  split; [exact Hfree |]. split; [exact Hlive |].
  split.
  - exact (proj1 (archiver_failure_stops_everything (H := failing_libs)
                    demo_world "me" (FStr "docs") false 80 "docs" []
                    ZipFailure (fs demo_world) eq_refl Hz eq_refl) Hfree).
  - exact (proj2 (archiver_failure_stops_everything (H := failing_libs)
                    demo_world "desk" (FStr "docs") false 80 "docs" []
                    ZipFailure (fs demo_world) eq_refl Hz eq_refl) desk
             Hlive).
Defined.

(** ** Starting a second server *)

(** X8.  Let a run of [send_server] serve.  In the world it leaves, a
    second [send_server] under the same code raises the
    name-already-exists [ValueError] after its lookup when the first
    server answers in time, whatever else it is given.  And a second
    server under another, free code on the same port, when that port is
    not 0, registers its name and then fails to bind: the name stays
    announced although nothing serves under it.  On port 0, where the
    kernel picks the port, the second server is not refused: it binds as
    well. *)
Theorem second_server `{Libs} :
  forall (w : World) code text file compress port,
    let r := send_server code text file compress port w in
    outcome r = Forever ->
    let w1 := final r in
    (forall text' file' compress' port',
        timely w (code ++ service) = true ->
        send_server code text' file' compress' port' w1
        = Run (Raised (ValueError (msg_exists code))) w1
              [EvQuery service (code ++ service)])
    /\ (forall code' t' file' compress',
          t' <> EmptyString ->
          port <> 0 ->
          services w1 !! (code' ++ service) = None ->
          send_server code' (Some t') file' compress' port w1
          = Run (Raised OSError)
                (with_services
                   (<[code' ++ service := own_record w1 code' port]>
                      (services w1)) w1)
                [EvQuery service (code' ++ service);
                 EvRegister (own_record w1 code' port) true;
                 EvListen "0.0.0.0" (str port) false])
    /\ (forall code' t' file' compress',
          t' <> EmptyString ->
          port = 0 ->
          services w1 !! (code' ++ service) = None ->
          In (EvListen "0.0.0.0" (str port) true)
             (events (send_server code' (Some t') file' compress' port w1))).
Proof.
  intros w code text file compress port r Hout w1.
  destruct (send_server_serving_world w code text file compress port Hout)
    as (_ & Hrange & _ & Hservices & Htimely & _ & app & Hsites & _).
  fold r in Hservices, Htimely, Hsites. fold w1 in Hservices, Htimely, Hsites.
  assert (Hown : services w1 !! (code ++ service)
                 = Some (own_record w code port)).
  { rewrite Hservices. apply lookup_insert_eq. }
  assert (Hbound : sites w1 !! port = Some app).
  { rewrite Hsites. apply lookup_insert_eq. }
  split_and!.
  - intros text' file' compress' port' Hintime.
    apply (send_server_taken_run w1 code text' file' compress' port'
             (own_record w code port)).
    unfold lookup_service. rewrite Htimely, Hintime. exact Hown.
  - intros code' t' file' compress' Ht' Hport Hfree.
    rewrite (send_server_text_run w1 code' t' file' compress' port Ht').
    rewrite (lookup_service_free _ _ Hfree). cbn zeta.
    rewrite Hfree, Hbound.
    destruct (decide (0 <= port <= 65535)); [| contradiction].
    destruct (decide (port = 0)); [contradiction | reflexivity].
  - intros code' t' file' compress' Ht' Hport Hfree.
    rewrite (send_server_text_run w1 code' t' file' compress' port Ht').
    rewrite (lookup_service_free _ _ Hfree). cbn zeta.
    rewrite Hfree.
    destruct (decide (0 <= port <= 65535)); [| contradiction].
    destruct (decide (port = 0)); [| contradiction].
    destruct (decide (length (get_local_ip_address (net w1)) = 4%nat));
      cbn; auto.
Qed.

Lemma second_server_witness :
  let r := send_server (H := demo_libs) "me" None (Some (FStr "a.txt")) false
             8080 demo_world in
  outcome r = Forever
  /\ timely demo_world ("me" ++ service) = true
  /\ send_server (H := demo_libs) "me" (Some "again") None false 9090
       (final r)
     = Run (Raised (ValueError (msg_exists "me"))) (final r)
           [EvQuery service ("me" ++ service)]
  /\ "other" <> EmptyString
  /\ 8080 <> 0
  /\ services (final r) !! ("you" ++ service) = None
  /\ outcome (send_server (H := demo_libs) "you" (Some "other") None false
                8080 (final r))
     = Raised OSError.
Proof.
  intros r.
  assert (Hout : outcome r = Forever) by (vm_compute; reflexivity).
  assert (Hne : "other" <> EmptyString) by discriminate.
  assert (Hport : 8080 <> 0) by discriminate.
  assert (Hfree : services (final r) !! ("you" ++ service) = None)
    by (vm_compute; reflexivity).
  destruct (second_server (H := demo_libs) demo_world "me" None
              (Some (FStr "a.txt")) false 8080 Hout)
    as (Hsame & Hother & _).
  split; [exact Hout |]. split; [reflexivity |].
  split; [exact (Hsame (Some "again") None false 9090 eq_refl) |].
  split; [exact Hne |]. split; [exact Hport |]. split; [exact Hfree |].
  exact (f_equal outcome (Hother "you" "other" None false Hne Hport Hfree)).
Defined.

(** ** Port numbers *)



(** ** The download handler beyond the happy path *)

(** X9.  The advertised length is the size the file had when the server
    started, and no more than that many bytes are sent.  Once a file
    server serves, its application holds the size of the file found at
    start, and for whatever regular file is at the path at request time,
    with a name and a type free of control characters, /download answers
    with that stored size as [content-length] and with the first that
    many bytes of the present file as body: a file that has grown is cut
    at the advertised length, a file that has shrunk is sent whole and
    falls short of it. *)
Theorem content_length_is_fixed_at_start `{Libs} :
  forall (w : World) code file compress port,
    let r := send_server code None file compress port w in
    outcome r = Forever ->
    exists path name node,
      sites (final r) !! port = Some (file_app path name (node_size node))
      /\ nodes (fs (final r)) !! realpath (fs (final r)) path = Some node
      /\ forall (w' : World) (data : bytes) peer,
           0 <= node_size node ->
           nodes (fs w') !! realpath (fs w') path = Some (RegularFile data) ->
           has_control name = false ->
           has_control (magic_mime data) = false ->
           exists response,
             outcome (serve (file_app path name (node_size node))
                        (GET "/download" peer) w')
             = Returned response
             /\ headers response !! "content-length"
                = Some (str (node_size node))
             /\ body_bytes response = take (Z.to_nat (node_size node)) data
             /\ (node_size node <= Z.of_nat (length data) ->
                 Z.of_nat (length (body_bytes response)) = node_size node)
             /\ (Z.of_nat (length data) <= node_size node ->
                 body_bytes response = data).
Proof.
  intros w code file compress port r Hout.
  destruct (send_server_file_bound w code file compress port Hout)
    as (path & name & node & Hsite & Hstat).
  fold r in Hsite, Hstat.
  exists path, name, node.
  split_and!; [exact Hsite | exact Hstat |].
  intros w' data peer Hsize Hnode Hname Hmime.
  destruct (file_stream_sender_run w' (GET "/download" peer) path name
              (node_size node) data Hnode
              (has_control_newline _ Hmime) (has_control_newline _ Hname)
              Hsize)
    as (response & chunks & Hrun & _ & Hheaders & Hbody & Hcat & _).
  exists response. rewrite serve_file_download, Hrun.
  assert (Hbytes : body_bytes response
                   = take (Z.to_nat (node_size node)) data).
  { unfold body_bytes. rewrite Hbody. exact Hcat. }
  split_and!.
  - reflexivity.
  - rewrite Hheaders. unfold download_headers.
    rewrite lookup_insert_ne by discriminate. apply lookup_insert_eq.
  - exact Hbytes.
  - intros Hgrown. rewrite Hbytes, length_take. lia.
  - intros Hshrunk. rewrite Hbytes. apply take_ge. lia.
Qed.

Lemma content_length_is_fixed_at_start_witness :
  let r := send_server (H := demo_libs) "me" None (Some (FStr "a.txt")) false
             8080 demo_world in
  let later := with_fs (fs grown_world) (final r) in
  outcome r = Forever
  /\ sites (final r) !! 8080 = Some (file_app "/home/u/a.txt" "a.txt" 2)
  /\ nodes (fs later) !! realpath (fs later) "/home/u/a.txt"
     = Some (RegularFile [x68; x69; x21])
  /\ has_control "a.txt" = false
  /\ has_control (@magic_mime demo_libs [x68; x69; x21]) = false
  /\ exists response,
       outcome (serve (H := demo_libs) (file_app "/home/u/a.txt" "a.txt" 2)
                  (GET "/download" None) later)
       = Returned response
       /\ headers response !! "content-length" = Some "2"
       /\ body_bytes response = [x68; x69].
Proof.
  intros r later.
  assert (Hout : outcome r = Forever) by (vm_compute; reflexivity).
  assert (Happ : sites (final r) !! 8080
                 = Some (file_app "/home/u/a.txt" "a.txt" 2))
    by (vm_compute; reflexivity).
  assert (Hnode : nodes (fs later) !! realpath (fs later) "/home/u/a.txt"
                  = Some (RegularFile [x68; x69; x21]))
    by (vm_compute; reflexivity).
  assert (Hname : has_control "a.txt" = false) by reflexivity.
  assert (Hmime : has_control (@magic_mime demo_libs [x68; x69; x21]) = false)
    by reflexivity.
  split; [exact Hout |]. split; [exact Happ |]. split; [exact Hnode |].
  split; [exact Hname |]. split; [exact Hmime |].
  destruct (content_length_is_fixed_at_start (H := demo_libs) demo_world "me"
              (Some (FStr "a.txt")) false 8080 Hout)
    as (path & name & node & Hsite & Hstat & Hserve).
  fold r in Hsite, Hstat, Hserve.
  assert (Hstart : nodes (fs (final r)) !! realpath (fs (final r))
                     "/home/u/a.txt"
                   = Some (RegularFile [x68; x69]))
    by (vm_compute; reflexivity).
  rewrite Happ in Hsite. injection Hsite as <- <- Hsize.
  rewrite Hstart in Hstat. injection Hstat as <-.
  destruct (Hserve later [x68; x69; x21] None ltac:(cbn; lia)
              Hnode Hname Hmime)
    as (response & Hrun & Hlen & Hbytes & _).
  exists response. split; [exact Hrun |]. split; [exact Hlen |].
  exact Hbytes.
Defined.

(** The file grew from two to three bytes: the header still says 2 and
    two bytes are sent. *)
Example stale_content_length :
  match outcome (serve (H := demo_libs) (file_app "/home/u/a.txt" "a.txt" 2)
                   (GET "/download" None) grown_world) with
  | Returned response =>
      (headers response !! "content-length", body_bytes response)
  | _ => (None, [])
  end = (Some "2", [x68; x69]).
Proof. vm_compute. reflexivity. Qed.

(** X11.  The download handler logs the transfer before it looks at the
    file, and sends its headers before it opens the file.  When nothing
    is at the path any more the request ends in [FileNotFoundError]; when
    a directory is there and the name has no control character, in
    [IsADirectoryError]; when something is there and the name holds a
    carriage return or a line feed, in [ValueError].  In all three cases
    the line "Content requested ..., transferred!" has been printed, no
    response is produced, and the world is unchanged. *)
Theorem download_logs_before_it_fails `{Libs} :
  forall (w : World) path name size peer,
    let s := serve (file_app path name size) (GET "/download" peer) w in
    (nodes (fs w) !! realpath (fs w) path = None ->
     s = Run (Raised FileNotFoundError) w
           [EvPrint (msg_transferred (GET "/download" peer))])
    /\ (forall sz,
          nodes (fs w) !! realpath (fs w) path = Some (Directory sz) ->
          has_control name = false ->
          s = Run (Raised IsADirectoryError) w
                [EvPrint (msg_transferred (GET "/download" peer))])
    /\ (forall node,
          nodes (fs w) !! realpath (fs w) path = Some node ->
          has_newline name = true ->
          exists msg,
            s = Run (Raised (ValueError msg)) w
                  [EvPrint (msg_transferred (GET "/download" peer))]).
Proof.
  intros w path name size peer s. subst s.
  rewrite serve_file_download.
  split_and!.
  - intros Hnone.
    unfold _file_stream_sender, file_app, msg_transferred.
    cbn -[stream_loop f_read chunk_size]. rewrite Hnone. reflexivity.
  - intros sz Hdir Hname.
    unfold _file_stream_sender, file_app, msg_transferred.
    cbn -[stream_loop f_read chunk_size set_header stream_response prepare].
    rewrite Hdir.
    cbn -[stream_loop f_read chunk_size set_header stream_response prepare].
    rewrite prepare_download, (has_control_newline _ Hname).
    change (has_newline "inode/directory") with false.
    cbn -[stream_loop f_read chunk_size set_header stream_response prepare].
    rewrite Hdir. reflexivity.
  - intros node Hnode Hname. eexists.
    apply (file_stream_sender_refused w (GET "/download" peer) path name
             size node Hnode Hname).
Qed.

Lemma download_logs_before_it_fails_witness :
  nodes (fs demo_world) !! realpath (fs demo_world) "/home/u/gone.txt" = None
  /\ serve (H := demo_libs) (file_app "/home/u/gone.txt" "gone.txt" 2)
       (GET "/download" None) demo_world
     = Run (Raised FileNotFoundError) demo_world
           [EvPrint (msg_transferred (GET "/download" None))].
Proof.
  assert (Hnone : nodes (fs demo_world)
                    !! realpath (fs demo_world) "/home/u/gone.txt" = None)
    by (vm_compute; reflexivity).
  split; [exact Hnone |].
  exact (proj1 (download_logs_before_it_fails (H := demo_libs) demo_world
                  "/home/u/gone.txt" "gone.txt" 2 None) Hnone).
Defined.

(** ** How many chunks *)

Lemma concat_length_bound {A} (n : nat) (l : list (list A)) :
  Forall (fun c => (length c <= n)%nat) l ->
  (length (concat l) <= length l * n)%nat.
Proof.
  induction 1 as [| c l Hc _ IH]; cbn; [lia |].
  rewrite length_app. lia.
Qed.

(** Chunks cut at multiples of [n] that are all non-empty and add up to
    [data]: the last one starts inside [data] and the whole fits in as
    many times [n]. *)
Lemma chunks_bounds {A} (n : nat) (data : list A) (chunks : list (list A)) :
  concat chunks = data ->
  (forall (i : nat) (c : list A),
      chunks !! i = Some c -> c = take n (drop (i * n) data) /\ c <> []) ->
  (length data <= length chunks * n)%nat
  /\ forall (i : nat) (c : list A),
       chunks !! i = Some c ->
       (i * n < length data)%nat
       /\ length c = Nat.min n (length data - i * n).
Proof.
  intros Hcat Hidx. split.
  - rewrite <- Hcat at 1. apply concat_length_bound.
    apply Forall_forall. intros c Hc.
    apply list_elem_of_lookup in Hc as [i Hi].
    destruct (Hidx i c Hi) as [-> _]. rewrite length_take. lia.
  - intros i c Hi. destruct (Hidx i c Hi) as [Hc Hne].
    assert (Hlen : length c = Nat.min n (length data - i * n)).
    { rewrite Hc, length_take, length_drop. reflexivity. }
    split; [| exact Hlen].
    destruct c; [congruence |]. cbn in Hlen. lia.
Qed.

(** X10.  A download of [S] bytes, of a file that is no longer than the
    size the server holds for it and whose name and type have no control
    character, is written in ceil(S / 8192) chunks: none for the empty
    file, and otherwise all of 8192 bytes except the last, which has
    between 1 and 8192. *)
Theorem download_chunk_count `{Libs} :
  forall (w : World) path name size (data : bytes) peer,
    nodes (fs w) !! realpath (fs w) path = Some (RegularFile data) ->
    Z.of_nat (length data) <= size ->
    has_control name = false ->
    has_control (magic_mime data) = false ->
    exists response chunks,
      outcome (serve (file_app path name size) (GET "/download" peer) w)
      = Returned response
      /\ body response = Stream chunks
      /\ Z.of_nat (length chunks) = (Z.of_nat (length data) + 8191) / 8192
      /\ (data = [] -> chunks = [])
      /\ (forall (i : nat) (c : bytes),
            chunks !! i = Some c ->
            (i + 1 < length chunks)%nat ->
            Z.of_nat (length c) = 8192)
      /\ (forall c : bytes,
            last chunks = Some c -> 1 <= Z.of_nat (length c) <= 8192).
Proof.
  intros w path name size data peer Hnode Hroom Hname Hmime.
  destruct (file_stream_sender_run w (GET "/download" peer) path name size
              data Hnode
              (has_control_newline _ Hmime) (has_control_newline _ Hname)
              ltac:(lia))
    as (response & chunks & Hrun & _ & _ & Hbody & Hcat & Hidx).
  exists response, chunks. rewrite serve_file_download, Hrun.
  rewrite take_ge in Hcat by lia.
  specialize (Hidx Hroom).
  destruct (chunks_bounds chunk_size data chunks Hcat Hidx)
    as [Hfits Hstarts].
  assert (Hn : Z.of_nat chunk_size = 8192) by reflexivity.
  assert (Hlast : forall c, last chunks = Some c ->
            (length chunks * chunk_size
             < length data + chunk_size)%nat
            /\ length c
               = Nat.min chunk_size
                   (length data - (length chunks - 1) * chunk_size)
            /\ (0 < length chunks)%nat).
  { intros c Hc. rewrite last_lookup in Hc.
    destruct (Hstarts _ c Hc) as [Hstart Hlen].
    apply lookup_lt_Some in Hc as Hk.
    replace (Nat.pred (length chunks)) with (length chunks - 1)%nat
      in * by lia.
    split_and!; [nia | exact Hlen | lia]. }
  split_and!; [reflexivity | exact Hbody | | | |].
  - destruct (last chunks) as [c |] eqn:Hc.
    + destruct (Hlast c eq_refl) as (Hupper & _ & Hpos).
      apply (Z.div_unique _ _ _
        (Z.of_nat (length data) + 8191 - 8192 * Z.of_nat (length chunks))).
      * nia.
      * lia.
    + apply last_None in Hc. subst chunks. cbn in Hcat. subst data.
      reflexivity.
  - intros ->. destruct chunks as [| c rest]; [reflexivity |].
    destruct (Hstarts 0%nat c eq_refl) as [Hstart _]. cbn in Hstart. lia.
  - intros i c Hi Hnext.
    destruct (Hstarts i c Hi) as [_ Hlen].
    destruct (lookup_lt_is_Some_2 chunks (i + 1)%nat Hnext) as [c' Hc'].
    destruct (Hstarts (i + 1)%nat c' Hc') as [Hstart' _].
    rewrite Hlen. nia.
  - intros c Hc. destruct (Hlast c Hc) as (_ & Hlen & _).
    rewrite last_lookup in Hc.
    destruct (Hstarts _ c Hc) as [Hstart _].
    replace (Nat.pred (length chunks)) with (length chunks - 1)%nat
      in * by lia.
    rewrite Hlen. lia.
Qed.

Lemma download_chunk_count_witness :
  nodes (fs demo_world) !! realpath (fs demo_world) "/home/u/a.txt"
  = Some (RegularFile [x68; x69])
  /\ Z.of_nat (length [x68; x69]) <= 2
  /\ has_control "a.txt" = false
  /\ has_control (@magic_mime demo_libs [x68; x69]) = false
  /\ exists response chunks,
       outcome (serve (H := demo_libs) (file_app "/home/u/a.txt" "a.txt" 2)
                  (GET "/download" None) demo_world)
       = Returned response
       /\ body response = Stream chunks
       /\ Z.of_nat (length chunks)
          = (Z.of_nat (length [x68; x69]) + 8191) / 8192
       /\ (@eq bytes [x68; x69] [] -> chunks = [])
       /\ (forall (i : nat) (c : bytes),
             chunks !! i = Some c ->
             (i + 1 < length chunks)%nat ->
             Z.of_nat (length c) = 8192)
       /\ (forall c : bytes,
             last chunks = Some c -> 1 <= Z.of_nat (length c) <= 8192).
Proof.
  assert (Hnode : nodes (fs demo_world)
                    !! realpath (fs demo_world) "/home/u/a.txt"
                  = Some (RegularFile [x68; x69]))
    by (vm_compute; reflexivity).
  assert (Hroom : Z.of_nat (length [x68; x69]) <= 2) by (cbn; lia).
  assert (Hname : has_control "a.txt" = false) by reflexivity.
  assert (Hmime : has_control (@magic_mime demo_libs [x68; x69]) = false)
    by reflexivity.
  split; [exact Hnode |]. split; [exact Hroom |]. split; [exact Hname |].
  split; [exact Hmime |].
  exact (download_chunk_count (H := demo_libs) demo_world "/home/u/a.txt"
           "a.txt" 2 [x68; x69] None Hnode Hroom Hname Hmime).
Defined.

(** ** What serving a request does to the world *)

Lemma serve_text_app_cases `{Libs} (t : string) (request : Request)
    (w : World) :
  let s := serve (text_app t) request w in
  final s = w
  /\ (exists response, outcome s = Returned response)
  /\ (is_get_or_head request /\ req_path request = "/" ->
      events s = [EvPrint (msg_transferred request)])
  /\ (~ (is_get_or_head request /\ req_path request = "/") ->
      events s = []).
Proof.
  unfold serve, text_app, msg_transferred, is_get_or_head. cbn.
  destruct (decide ("/" = req_path request)) as [Hroot |].
  - destruct (decide (req_method request = "GET"));
      [| destruct (decide (req_method request = "HEAD"))];
      cbn; split_and!; eauto; try tauto.
    all: intros Hno; exfalso; apply Hno; auto.
  - destruct (decide ("/airshare" = req_path request)); cbn;
      [destruct (decide (req_method request = "GET"));
       [| destruct (decide (req_method request = "HEAD"))]; cbn |];
      split_and!; eauto.
    all: intros [_ Hpath]; congruence.
Qed.

(** The download handler ends in a response or in one of three errors,
    after its one printed line and with the world as it was. *)
Lemma file_stream_sender_cases `{Libs} (path name : string) (size : Z)
    (request : Request) (w : World) :
  let s := _file_stream_sender request (file_app path name size) w in
  final s = w
  /\ events s = [EvPrint (msg_transferred request)]
  /\ ((exists response, outcome s = Returned response)
      \/ outcome s = Raised FileNotFoundError
      \/ outcome s = Raised IsADirectoryError
      \/ exists msg, outcome s = Raised (ValueError msg)).
Proof.
  unfold _file_stream_sender, file_app, msg_transferred.
  cbn -[stream_loop f_read chunk_size set_header stream_response prepare].
  destruct (nodes (fs w) !! realpath (fs w) path) as [[data | sz] |] eqn:Hn;
    cbn -[stream_loop f_read chunk_size set_header stream_response prepare];
    [| | eauto 10].
  - rewrite prepare_download.
    destruct (has_newline (magic_mime data) || has_newline name);
      cbn -[stream_loop f_read chunk_size set_header stream_response prepare];
      [eauto 10 |].
    rewrite Hn.
    cbn -[stream_loop f_read chunk_size set_header stream_response prepare].
    destruct (f_read chunk_size {| f_data := data; f_pos := 0 |})
      as [chunk f].
    destruct (stream_loop f chunk _) as [response f']. cbn. eauto 10.
  - rewrite prepare_download.
    destruct (has_newline "inode/directory" || has_newline name);
      cbn -[stream_loop f_read chunk_size set_header stream_response prepare];
      [eauto 10 |].
    rewrite Hn. eauto 10.
Qed.

Lemma serve_file_app_cases `{Libs} (path name : string) (size : Z)
    (request : Request) (w : World) :
  let s := serve (file_app path name size) request w in
  final s = w
  /\ (is_get_or_head request /\ req_path request = "/download" ->
      events s = [EvPrint (msg_transferred request)]
      /\ ((exists response, outcome s = Returned response)
          \/ outcome s = Raised FileNotFoundError
          \/ outcome s = Raised IsADirectoryError
          \/ exists msg, outcome s = Raised (ValueError msg)))
  /\ (~ (is_get_or_head request /\ req_path request = "/download") ->
      events s = [] /\ exists response, outcome s = Returned response).
Proof.
  pose proof (file_stream_sender_cases path name size request w) as Hdl.
  cbn zeta in Hdl. destruct Hdl as (Hdlw & Hdlev & Hdlout).
  unfold serve, is_get_or_head.
  change (router (file_app path name size))
    with [("/", H_download_page);
          ("/airshare", H_is_airshare_file_sender);
          ("/download", H_file_stream_sender)].
  cbn [resolve].
  destruct (decide ("/" = req_path request)) as [Hroot |].
  { destruct (decide (req_method request = "GET"));
      [| destruct (decide (req_method request = "HEAD"))];
      cbn; split_and!; eauto;
      intros [_ Hpath]; congruence. }
  destruct (decide ("/airshare" = req_path request)).
  { destruct (decide (req_method request = "GET"));
      [| destruct (decide (req_method request = "HEAD"))];
      cbn; split_and!; eauto;
      intros [_ Hpath]; congruence. }
  destruct (decide ("/download" = req_path request)) as [Hpath |];
    [| cbn; split_and!; eauto; intros [_ Hpath]; congruence].
  destruct (decide (req_method request = "GET")) as [Hget |];
    [| destruct (decide (req_method request = "HEAD")) as [Hhead |]].
  - cbn [run_handler]. split_and!; [exact Hdlw | auto |].
    intros Hno. exfalso. apply Hno. auto.
  - cbn [run_handler]. split_and!; [exact Hdlw | auto |].
    intros Hno. exfalso. apply Hno. auto.
  - cbn. split_and!; eauto. intros [[Hm | Hm] _]; contradiction.
Qed.

(** X13.  Serving a request never changes the world, never trips over a
    missing application key, and logs at most one line.  For the
    application of a serving [send_server] and any request at all, the
    world after the request is the world before it; the request either
    produces a response or, for a GET or HEAD of /download only, ends in
    [FileNotFoundError], [IsADirectoryError] or [ValueError]; and the
    line "Content requested ..., transferred!" is printed exactly for a
    GET or HEAD of / on a text server and of /download on a file server:
    the download page, the role probe and every other request leave no
    trace. *)
Theorem serving_is_read_only `{Libs} :
  forall (w : World) code text file compress port,
    let r := send_server code text file compress port w in
    outcome r = Forever ->
    forall app, sites (final r) !! port = Some app ->
    forall (request : Request) (w' : World),
      let s := serve app request w' in
      let logged :=
        is_get_or_head request
        /\ (text <> None /\ req_path request = "/"
            \/ text = None /\ req_path request = "/download") in
      final s = w'
      /\ ((exists response, outcome s = Returned response)
          \/ (text = None /\ req_path request = "/download"
              /\ is_get_or_head request
              /\ (outcome s = Raised FileNotFoundError
                  \/ outcome s = Raised IsADirectoryError
                  \/ exists msg, outcome s = Raised (ValueError msg))))
      /\ (logged -> events s = [EvPrint (msg_transferred request)])
      /\ (~ logged -> events s = []).
Proof.
  intros w code text file compress port r Hout app Happ request w'.
  destruct (send_server_serving_world w code text file compress port Hout)
    as (_ & _ & _ & _ & _ & _ & app' & Hsites & Hshape).
  fold r in Hsites. rewrite Hsites, lookup_insert_eq in Happ.
  injection Happ as <-.
  destruct Hshape as [(t & -> & _ & ->) | (-> & path & name & size & ->)].
  - destruct (serve_text_app_cases t request w') as (Hw & Hres & Hyes & Hno).
    cbn zeta. split_and!; [exact Hw | left; exact Hres | |].
    + intros [Hm [[_ Hpath] | [Hnone _]]]; [| discriminate Hnone].
      apply Hyes. split; assumption.
    + intros Hnot. apply Hno. intros [Hm Hpath]. apply Hnot.
      split; [exact Hm |]. left. split; [discriminate | exact Hpath].
  - destruct (serve_file_app_cases path name size request w')
      as (Hw & Hyes & Hno).
    cbn zeta. split_and!; [exact Hw | | |].
    + destruct (decide (req_path request = "/download")) as [Hpath | Hpath].
      * destruct (decide (req_method request = "GET")) as [Hget | Hget];
          [| destruct (decide (req_method request = "HEAD"))
               as [Hhead | Hhead]].
        -- destruct (Hyes (conj (or_introl Hget) Hpath))
             as [_ [Hres | Hfail]]; [left; exact Hres |].
           right. split_and!; auto. left. exact Hget.
        -- destruct (Hyes (conj (or_intror Hhead) Hpath))
             as [_ [Hres | Hfail]]; [left; exact Hres |].
           right. split_and!; auto. right. exact Hhead.
        -- left. apply Hno. intros [[Hm | Hm] _]; contradiction.
      * left. apply Hno. intros [_ Hp]. contradiction.
    + intros [Hm [[Hsome _] | [_ Hpath]]]; [congruence |].
      apply Hyes. split; assumption.
    + intros Hnot. apply Hno. intros [Hm Hpath]. apply Hnot.
      split; [exact Hm |]. right. split; [reflexivity | exact Hpath].
Qed.

Lemma serving_is_read_only_witness :
  let r := send_server (H := demo_libs) "me" (Some "hi") None false
             8080 demo_world in
  let request := {| req_method := "HEAD"; req_path := "/";
                    peername := Some ("192.168.1.7", 40000) |} in
  let s := serve (H := demo_libs) (text_app "hi") request (final r) in
  outcome r = Forever
  /\ sites (final r) !! 8080 = Some (text_app "hi")
  /\ final s = final r
  /\ events s = [EvPrint "Content requested (by 192.168.1.7), transferred!"].
Proof.
  intros r request s.
  assert (Hout : outcome r = Forever) by (vm_compute; reflexivity).
  assert (Happ : sites (final r) !! 8080 = Some (text_app "hi"))
    by (vm_compute; reflexivity).
  destruct (serving_is_read_only (H := demo_libs) demo_world "me" (Some "hi")
              None false 8080 Hout _ Happ request (final r))
    as (Hw & _ & Hyes & _).
  split; [exact Hout |]. split; [exact Happ |]. split; [exact Hw |].
  apply Hyes. split; [right; reflexivity |].
  left. split; [discriminate | reflexivity].
Defined.

(** ** Display names *)

(** X12.  The display name of a file that is not archived is the part of
    its path after the last separator.  Splitting a path at the
    separator and joining the pieces again gives the path back; the last
    piece never holds a separator, is the whole path when the path has
    none, and is what follows the separator of [dir/name] (the empty
    string for a path that ends in a separator).  [send] posts an
    unarchived file under the last piece of the path it was given, and
    [send_server] serves it under the last piece of the stored path. *)
Theorem display_name_is_last_piece `{Libs} :
  (forall p, sep_join os_path_sep (split os_path_sep p) = p)
  /\ (forall p, has_sep (basename p) = false)
  /\ (forall p, has_sep p = false -> basename p = p)
  /\ (forall d f,
        has_sep f = false -> basename (d ++ String os_path_sep f) = f)
  /\ (forall (w : World) code fa compress first others url field name data,
        paths_of fa = first :: others ->
        zips (fs w) compress (first :: others) = false ->
        In (EvPost url field name data)
           (events (send code (Some fa) compress w)) ->
        name = basename first /\ has_sep name = false)
  /\ (forall (w : World) code fa compress port first others,
        paths_of fa = first :: others ->
        zips (fs w) compress (first :: others) = false ->
        let r := send_server code None (Some fa) compress port w in
        outcome r = Forever ->
        exists path size,
          sites (final r) !! port = Some (file_app path (basename path) size)
          /\ path = realpath (fs w) first
          /\ has_sep (basename path) = false).
Proof.
  split_and!.
  - exact join_split.
  - exact basename_no_sep.
  - intros p Hp. unfold basename. rewrite (split_no_sep p Hp). reflexivity.
  - exact basename_app_sep.
  - intros w code fa compress first others url field name data
           Hpaths Hz Hin.
    assert (Hname : name = basename first).
    { revert Hin.
      destruct (lookup_service w (code ++ service)) as [info |] eqn:Hlive.
      2: { rewrite (send_absent_run w code (Some fa) compress Hlive).
           cbn. intros [Hq | [Hp | []]]; discriminate. }
      rewrite (send_run w code fa compress info Hlive), Hpaths. cbn zeta.
      rewrite Hz. cbn [fst snd].
      destruct (si_addresses info) as [| packed rest];
        [cbn; intros [Hq | []]; discriminate |].
      destruct (decide (length packed = 4%nat));
        [| cbn; intros [Hq | []]; discriminate].
      destruct (http_get (net w) (base_url info packed ++ "/airshare"))
        as [answer |]; [| cbn; intros [Hq | [Hg | []]]; discriminate].
      destruct (decide (answer ≠ "Upload Receiver"));
        [cbn; intros [Hq | [Hg | [Hp | []]]]; discriminate |].
      destruct (nodes (fs w) !! realpath (fs w) first) as [[d | sz] |];
        try (cbn; intros [Hq | [Hg | []]]; discriminate).
      destruct (http_post (net w) (base_url info packed ++ "/upload"));
        cbn.
      - intros [Hq | [Hg | [Hp | [Hl | []]]]]; try discriminate.
        injection Hp as _ _ <- _. reflexivity.
      - intros [Hq | [Hg | [Hp | []]]]; try discriminate.
        injection Hp as _ _ <- _. reflexivity. }
    split; [exact Hname |]. rewrite Hname. apply basename_no_sep.
  - intros w code fa compress port first others Hpaths Hz r. subst r.
    rewrite (send_server_file_run w code (Some fa) compress port).
    destruct (lookup_service w (code ++ service)); [discriminate |].
    cbn [from_option]. rewrite Hpaths. cbn zeta. rewrite Hz.
    cbn [fst snd].
    destruct (services w !! (code ++ service)); [discriminate |].
    destruct (nodes (fs w) !! realpath (fs w) (realpath (fs w) first))
      as [node |]; [| discriminate].
    destruct (decide (0 <= port <= 65535)); [| discriminate].
    destruct (if decide (port = 0) then None else sites w !! port);
      [discriminate |].
    destruct (decide (length (get_local_ip_address (net w)) = 4%nat));
      [| discriminate].
    intros _. exists (realpath (fs w) first), (node_size node). cbn.
    split_and!; [apply lookup_insert_eq | reflexivity
                | apply basename_no_sep].
Qed.

Lemma display_name_is_last_piece_witness :
  has_sep "a.txt" = false
  /\ basename ("/home/u" ++ String os_path_sep "a.txt") = "a.txt"
  /\ basename ("/home/u" ++ String os_path_sep EmptyString) = EmptyString
  /\ paths_of (FStr "/home/u/a.txt") = ["/home/u/a.txt"]
  /\ zips (fs demo_world) false ["/home/u/a.txt"] = false
  /\ In (EvPost "http://192.168.1.7:8000/upload" "upload_file" "a.txt"
           [x68; x69])
        (events (send (H := demo_libs) "desk" (Some (FStr "/home/u/a.txt"))
                   false demo_world))
  /\ "a.txt" = basename "/home/u/a.txt".
Proof.
  destruct (display_name_is_last_piece (H := demo_libs))
    as (_ & _ & _ & Hlast & Hsend & _).
  assert (Hz : zips (fs demo_world) false ["/home/u/a.txt"] = false)
    by (vm_compute; reflexivity).
  assert (Hin : In (EvPost "http://192.168.1.7:8000/upload" "upload_file"
                      "a.txt" [x68; x69])
                   (events (send (H := demo_libs) "desk"
                              (Some (FStr "/home/u/a.txt")) false
                              demo_world)))
    by (vm_compute; tauto).
  split; [reflexivity |].
  split; [exact (Hlast "/home/u" "a.txt" eq_refl) |].
  split; [exact (Hlast "/home/u" EmptyString eq_refl) |].
  split; [reflexivity |]. split; [exact Hz |]. split; [exact Hin |].
  exact (proj1 (Hsend demo_world "desk" (FStr "/home/u/a.txt") false
                  "/home/u/a.txt" [] _ _ _ _ eq_refl Hz Hin)).
Defined.

(** ** More edge cases of [send] *)

(** X14.  [send] takes no [None] for its file.  On a resolved code, a
    call without a file ends in [TypeError] right after the lookup, not
    in the must-be-non-empty [ValueError] that the empty string and the
    empty list get: nothing is asked of the service and nothing is
    sent. *)
Theorem send_without_file `{Libs} :
  forall (w : World) code compress info,
    lookup_service w (code ++ service) = Some info ->
    let r := send code None compress w in
    r = Run (Raised TypeError) w [EvQuery service (code ++ service)]
    /\ r <> send code (Some (FList [])) compress w
    /\ performs_no is_http r.
Proof.
  intros w code compress info Hlive r.
  assert (Hr : r = Run (Raised TypeError) w
                     [EvQuery service (code ++ service)]).
  { subst r. unfold send. cbn. rewrite Hlive. reflexivity. }
  split_and!; [exact Hr | |].
  - rewrite Hr. unfold send. cbn. rewrite Hlive. cbn. discriminate.
  - rewrite Hr. unfold performs_no. cbn. repeat constructor.
Qed.

Lemma send_without_file_witness :
  lookup_service demo_world ("desk" ++ service) = Some desk
  /\ send (H := demo_libs) "desk" None false demo_world
     = Run (Raised TypeError) demo_world [EvQuery service ("desk" ++ service)].
Proof.
  assert (Hlive : lookup_service demo_world ("desk" ++ service) = Some desk)
    by (vm_compute; reflexivity).
  split; [exact Hlive |].
  exact (proj1 (send_without_file (H := demo_libs) demo_world "desk" false
                  desk Hlive)).
Defined.

(** X15.  [send] asks the receiver for its role before it opens the file.
    For a single path that is no directory and at which nothing exists,
    with compression off, a call to a service that answers "Upload
    Receiver" performs the lookup and the GET of /airshare and only then
    fails with [FileNotFoundError]: nothing is posted and the world is
    unchanged. *)
Theorem send_opens_the_file_last `{Libs} :
  forall (w : World) code fa first info packed others,
    lookup_service w (code ++ service) = Some info ->
    si_addresses info = packed :: others ->
    length packed = 4%nat ->
    http_get (net w) (base_url info packed ++ "/airshare")
    = Some "Upload Receiver" ->
    paths_of fa = [first] ->
    isdir (fs w) first = false ->
    nodes (fs w) !! realpath (fs w) first = None ->
    let r := send code (Some fa) false w in
    r = Run (Raised FileNotFoundError) w
          [EvQuery service (code ++ service);
           EvGet (base_url info packed ++ "/airshare")]
    /\ performs_no is_post r.
Proof.
  intros w code fa first info packed others
         Hlive Haddr Hlen Hget Hpaths Hdir Hnone r.
  assert (Hr : r = Run (Raised FileNotFoundError) w
          [EvQuery service (code ++ service);
           EvGet (base_url info packed ++ "/airshare")]).
  { subst r. rewrite (send_run w code fa false info Hlive), Hpaths.
    cbn zeta. unfold zips. cbn [length]. rewrite Hdir.
    destruct (decide (1 < 1)%nat); [lia |]. cbn [fst snd].
    rewrite Haddr.
    destruct (decide (length packed = 4%nat)); [| contradiction].
    rewrite Hget.
    destruct (decide ("Upload Receiver" ≠ "Upload Receiver"));
      [congruence |].
    rewrite Hnone. reflexivity. }
  split; [exact Hr |]. rewrite Hr. unfold performs_no. cbn.
  repeat constructor.
Qed.

Lemma send_opens_the_file_last_witness :
  lookup_service demo_world ("desk" ++ service) = Some desk
  /\ http_get (net demo_world)
       (base_url desk [xc0; xa8; x01; x07] ++ "/airshare")
     = Some "Upload Receiver"
  /\ isdir (fs demo_world) "gone.txt" = false
  /\ nodes (fs demo_world) !! realpath (fs demo_world) "gone.txt" = None
  /\ send (H := demo_libs) "desk" (Some (FStr "gone.txt")) false demo_world
     = Run (Raised FileNotFoundError) demo_world
           [EvQuery service ("desk" ++ service);
            EvGet (base_url desk [xc0; xa8; x01; x07] ++ "/airshare")].
Proof.
  assert (Hlive : lookup_service demo_world ("desk" ++ service) = Some desk)
    by (vm_compute; reflexivity).
  assert (Hget : http_get (net demo_world)
                   (base_url desk [xc0; xa8; x01; x07] ++ "/airshare")
                 = Some "Upload Receiver")
    by (vm_compute; reflexivity).
  assert (Hdir : isdir (fs demo_world) "gone.txt" = false)
    by (vm_compute; reflexivity).
  assert (Hnone : nodes (fs demo_world)
                    !! realpath (fs demo_world) "gone.txt" = None)
    by (vm_compute; reflexivity).
  split; [exact Hlive |]. split; [exact Hget |]. split; [exact Hdir |].
  split; [exact Hnone |].
  exact (proj1 (send_opens_the_file_last (H := demo_libs) demo_world "desk"
                  (FStr "gone.txt") "gone.txt" desk [xc0; xa8; x01; x07] []
                  Hlive eq_refl eq_refl Hget eq_refl Hdir Hnone)).
Defined.
